(** * transbigdata.busgps: arrival/departure detection and one-way trip times

  A shallow embedding of [busgps_arriveinfo] and [busgps_onewaytime]
  (src/transbigdata/busgps.py) and the proofs of their properties.

  Conventions of the embedding.
  - A DataFrame is the list of its rows, in row order; a column is a list.
  - A pandas Timestamp is its integer number of nanoseconds since the Unix
    epoch ([Z]); a Timedelta is a number of nanoseconds.
  - Python floats (elapsed seconds, path positions, distances) are exact
    rationals ([Q]): rounding of float arithmetic is not modelled.
  - Python exceptions are values of [Py.exn], threaded by the [Py.result]
    monad.
  - shapely/GEOS are external: [lineshp.project], [distance] and
    [intersection] are parameters of the functions that call them. *)

From stdpp Require Import list.
From Stdlib Require Import ZArith QArith Qabs String.
From Stdlib Require Import List Sorted Lia Lqa.
Import ListNotations.

Open Scope Z_scope.

(* ================================================================= *)
(** ** Python values and exceptions *)

Module Py.

Inductive exn : Type :=
| ValueError_NoObjectsToConcatenate   (* pd.concat([]) *)
| ValueError_LengthMismatch           (* df[col] = list of another length *)
| IndexError.                         (* positional lookup out of range *)

Inductive result (A : Type) : Type :=
| Ok (a : A)
| Raise (e : exn).
Arguments Ok {A} a.
Arguments Raise {A} e.

Definition bind {A B} (m : result A) (k : A -> result B) : result B :=
  match m with
  | Ok a => k a
  | Raise e => Raise e
  end.

(** [for x in xs: st = body x st], stopping at the first exception. *)
Fixpoint for_ {X S} (xs : list X) (body : X -> S -> result S) (st : S)
  : result S :=
  match xs with
  | [] => Ok st
  | x :: xs' => bind (body x st) (for_ xs' body)
  end.

(** [l[i]] / [.iloc[i]] for a non-negative [i]. *)
Definition iloc {A} (l : list A) (i : nat) : result A :=
  match l !! i with
  | Some a => Ok a
  | None => Raise IndexError
  end.

(** [int(r)]: truncation toward zero. *)
Definition int (r : Q) : Z := Z.quot (Qnum r) (Zpos (Qden r)).

(** [np.sign]. *)
Definition np_sign (x : Q) : Q :=
  match (x ?= 0)%Q with
  | Lt => (-1)%Q
  | Eq => 0%Q
  | Gt => 1%Q
  end.

(** [x < y] on floats. *)
Definition Qltb (x y : Q) : bool := negb (Qle_bool y x).

End Py.

#[export] Instance result_ret : MRet Py.result := @Py.Ok.
#[export] Instance result_bind : MBind Py.result := fun _ _ k m => Py.bind m k.

(* ================================================================= *)
(** ** The pandas operations used by the module *)

Module Pandas.

(** [Series.drop_duplicates()], keep='first': the first occurrence of
    every value, in order of appearance. *)
Fixpoint drop_duplicates {A} (eqb : A -> A -> bool) (l : list A) : list A :=
  match l with
  | [] => []
  | x :: l' => x :: filter (fun y => negb (eqb x y)) (drop_duplicates eqb l')
  end.

(** [sort_values]: rows in non-decreasing key order, rows with equal keys
    kept in their original order.  For a list of several keys pandas sorts
    with a stable lexsort; for the single float key of the dwell merge the
    order of tied rows is taken to be the stable one as well. *)
Fixpoint insert {A} (leb : A -> A -> bool) (x : A) (l : list A) : list A :=
  match l with
  | [] => [x]
  | y :: l' => if leb x y then x :: l else y :: insert leb x l'
  end.

Definition sort_values {A} (leb : A -> A -> bool) (l : list A) : list A :=
  fold_right (insert leb) [] l.

(** [Series.shift(-1)]: every value replaced by the next one, NaN last. *)
Definition shift_up {A} (l : list A) : list (option A) :=
  match l with
  | [] => []
  | _ :: l' => map Some l' ++ [None]
  end.

(** [Series.shift()]: every value replaced by the previous one, NaN first. *)
Definition shift_down {A} (l : list A) : list (option A) :=
  match l with
  | [] => []
  | _ :: _ => None :: map Some (removelast l)
  end.

(** [Series.fillna(v)]. *)
Definition fillna {A} (v : A) (l : list (option A)) : list A :=
  map (fun o => match o with Some a => a | None => v end) l.

(** [df[mask]]: the rows whose mask entry is True. *)
Definition mask_rows {A} (l : list A) (mask : list bool) : list A :=
  map fst (filter snd (combine l mask)).

(** [pd.concat(ls)] of a list of frames. *)
Definition concat {A} (ls : list (list A)) : Py.result (list A) :=
  match ls with
  | [] => Py.Raise Py.ValueError_NoObjectsToConcatenate
  | _ :: _ => Py.Ok (List.concat ls)
  end.

(** [df[col] = values] for a list [values]: the lengths must agree. *)
Definition set_column {A B} (df : list A) (values : list B)
  : Py.result (list (A * B)) :=
  if Nat.eqb (length values) (length df)
  then Py.Ok (combine df values)
  else Py.Raise Py.ValueError_LengthMismatch.

(** [df.loc[i, col] = v] on a frame with a default RangeIndex of
    [length col] rows; a label beyond the index enlarges the frame. *)
Definition loc_set {A} (i : nat) (v : A) (col : list A) : list A :=
  if Nat.ltb i (length col) then <[i:=v]> col else col ++ [v].

(** [Series.min()] and [Series.max()]; on an empty column pandas gives
    NaT/NaN, which the callers below never read (their loops do not run):
    it is represented by 0. *)
Definition series_min (l : list Z) : Z :=
  match l with
  | [] => 0
  | x :: l' => fold_left Z.min l' x
  end.

Definition series_max (l : list Q) : Q :=
  match l with
  | [] => 0%Q
  | x :: l' => fold_left (fun m y => if Qle_bool m y then y else m) l' x
  end.

Definition ns_per_second : Z := 1000000000.

(** [Timedelta.total_seconds()]. *)
Definition total_seconds (td : Z) : Q := inject_Z td / inject_Z ns_per_second.

(** [pd.Timedelta(n, unit='s')]. *)
Definition Timedelta_s (n : Z) : Z := n * ns_per_second.

(** [Timestamp.hour] of a timezone-naive timestamp. *)
Definition hour (ts : Z) : Z := (ts / (3600 * ns_per_second)) mod 24.

End Pandas.

(* ================================================================= *)
(** ** The tables of the module *)

(** A row of the arrival/departure table ([arrive_info]).  The times are
    elapsed seconds ([T = Q]) inside [busgps_arriveinfo] and timestamps
    ([T = Z]) in its result. *)
Record ArriveInfo (T : Type) : Type := mkArriveInfo {
  arrivetime : T;
  leavetime : T;
  stopname : string;
  VehicleId : Z
}.
Arguments mkArriveInfo {T}.
Arguments arrivetime {T}.
Arguments leavetime {T}.
Arguments stopname {T}.
Arguments VehicleId {T}.

(* ================================================================= *)
(** ** busgps_arriveinfo *)

Module Arriveinfo.

(** A row of the cleaned GPS table, with its point in the projected CRS. *)
Record GPS (Point : Type) : Type := mkGPS {
  gps_VehicleId : Z;
  GPSDateTime : Z;
  geometry : Point
}.
Arguments mkGPS {Point}.
Arguments gps_VehicleId {Point}.
Arguments GPSDateTime {Point}.
Arguments geometry {Point}.

(** The same row with its ['project'] column. *)
Record BusProject (Point : Type) : Type := mkBusProject {
  gps : GPS Point;
  project : Q
}.
Arguments mkBusProject {Point}.
Arguments gps {Point}.
Arguments project {Point}.

(** A row of the stop table. *)
Record Stop (Point : Type) : Type := mkStop {
  stop_stopname : string;
  stop_geometry : Point
}.
Arguments mkStop {Point}.
Arguments stop_stopname {Point}.
Arguments stop_geometry {Point}.

Inductive Method : Type :=
| method_project     (* method='project' *)
| method_dislimit.   (* method='dislimit' *)

(** One connected piece of [bus_linestring.intersection(buffer_polygon)]:
    a LineString in the (time_st, project) plane, given by its first
    coordinate and the following ones. *)
Record LineString : Type := mkLineString {
  coords_first : Q * Q;
  coords_rest : list (Q * Q)
}.

(** [r.coords[0][0]] and [r.coords[-1][0]]. *)
Definition coords_0_0 (r : LineString) : Q := fst (coords_first r).
Definition coords_last_0 (r : LineString) : Q :=
  fst (List.last (coords_rest r) (coords_first r)).

(** A row of the frame [c] of the dwell merge: a crossing time and its
    flag, 1 for an arrival and 0 for a departure. *)
Record Crossing : Type := mkCrossing {
  time : Q;
  flag : Z
}.

Definition time_leb (x y : Crossing) : bool := Qle_bool (time x) (time y).

(** Lines 185-197: the rows of [c] that survive the time threshold
    ([-c['flag_3']] is the negated mask). *)
Definition flag_1 (mintime : Q) (c : list Crossing) : list bool :=
  zip_with
    (fun r time1 =>
       match time1 with
       | Some t1 => Py.Qltb (t1 - time r) mintime
       | None => false
       end && (flag r =? 0))
    c (Pandas.shift_up (map time c)).

Definition flag_2 (mintime : Q) (c : list Crossing) : list bool :=
  Pandas.fillna false (Pandas.shift_down (flag_1 mintime c)).

Definition flag_3 (mintime : Q) (c : list Crossing) : list bool :=
  zip_with orb (flag_1 mintime c) (flag_2 mintime c).

Definition filter_threshold (mintime : Q) (c : list Crossing) : list Crossing :=
  Pandas.mask_rows c (map negb (flag_3 mintime c)).

(** Lines 179-191: the frame [c], arrivals and departures in time order. *)
Definition crossings (arrive : list LineString) : list Crossing :=
  let a := map (fun r => mkCrossing (coords_0_0 r) 1) arrive in
  let b := map (fun r => mkCrossing (coords_last_0 r) 0) arrive in
  Pandas.sort_values time_leb (a ++ b).

(** Lines 198-202: the surviving arrivals, with the surviving departures
    as their ['leavetime'] column. *)
Definition pair_up (stopname : string) (car : Z) (c : list Crossing)
  : Py.result (list (ArriveInfo Q)) :=
  let arrive_new := map time (filter (fun r => flag r =? 1) c) in
  rows ← Pandas.set_column arrive_new
           (map time (filter (fun r => flag r =? 0) c));
  mret (map (fun r => mkArriveInfo (fst r) (snd r) stopname car) rows).

(** Lines 179-202: [arrive_new] for one vehicle and one stop, from the
    pieces of a non-empty intersection. *)
Definition arrive_new (mintime : Q) (stopname : string) (car : Z)
    (arrive : list LineString) : Py.result (list (ArriveInfo Q)) :=
  pair_up stopname car (filter_threshold mintime (crossings arrive)).

Section Geometry.

Context {Point : Type}.
(** [lineshp.project(p)], [p.distance(q)] and, for a trajectory, the two
    end points of the stop segment and [stopbuffer], the pieces of
    [LineString(trajectory).intersection(LineString(segment).buffer(stopbuffer))]
    (none when the intersection is empty). *)
Variable lineshp_project : Point -> Q.
Variable distance : Point -> Point -> Q.
Variable intersection : list (Q * Q) -> list (Q * Q) -> Q -> list LineString.

(** Lines 128-137: the position [proj1] of the point [g1], from the
    position [proj] given to the point [g0] before it. *)
Definition dislimit_proj1 (g0 g1 : Point) (proj : Q) : Q :=
  let dis := distance g1 g0 in
  if Qeq_bool dis 0 then proj
  else
    let proj2 := lineshp_project g1 in
    if Py.Qltb dis (Qabs (proj2 - proj))
    then (Py.np_sign (proj2 - proj) * dis + proj)%Q
    else proj2.

(** Lines 123-138: one iteration of the distance-limit loop, on the
    geometry column of [tmp] and its ['project'] column. *)
Definition dislimit_body (geom : list Point) (i : nat) (col : list Q)
  : Py.result (list Q) :=
  '(proj, col) ←
    (if Nat.eqb i 0
     then g ← Py.iloc geom i;
          let proj := lineshp_project g in
          mret (proj, Pandas.loc_set i proj col)
     else proj ← Py.iloc col i;
          mret (proj, col));
  g1 ← Py.iloc geom (i + 1);
  g0 ← Py.iloc geom i;
  mret (Pandas.loc_set (i + 1) (dislimit_proj1 g0 g1 proj) col).

Definition vehicle_time_leb (x y : GPS Point) : bool :=
  (gps_VehicleId x <? gps_VehicleId y)
  || ((gps_VehicleId x =? gps_VehicleId y) && (GPSDateTime x <=? GPSDateTime y)).

(** Lines 117-121: the rows of one vehicle, in time order. *)
Definition dislimit_tmp (data : list (GPS Point)) (vid : Z) : list (GPS Point) :=
  Pandas.sort_values vehicle_time_leb
    (filter (fun r => gps_VehicleId r =? vid) data).

(** Lines 121-138: the ['project'] column of [tmp]. *)
Definition dislimit_project (tmp : list (GPS Point)) : Py.result (list Q) :=
  Py.for_ (seq 0 (length tmp - 1)) (dislimit_body (map geometry tmp))
    (repeat 0%Q (length tmp)).

(** Lines 110-140. *)
Definition position_matching (method : Method) (data : list (GPS Point))
  : Py.result (list (BusProject Point)) :=
  match method with
  | method_project =>
      mret (map (fun r => mkBusProject r (lineshp_project (geometry r))) data)
  | method_dislimit =>
      tmps ← Py.for_ (Pandas.drop_duplicates Z.eqb (map gps_VehicleId data))
               (fun vid tmps =>
                  let tmp := dislimit_tmp data vid in
                  col ← dislimit_project tmp;
                  mret (tmps ++ [zip_with mkBusProject tmp col]))
               [];
      Pandas.concat tmps
  end.

Definition time_st (starttime : Z) (r : BusProject Point) : Q :=
  Pandas.total_seconds (GPSDateTime (gps r) - starttime).

(** Line 166: the trajectory of one vehicle in the (time_st, project)
    plane. *)
Definition bus_linestring (starttime : Z) (tmp : list (BusProject Point))
  : list (Q * Q) :=
  map (fun r => (time_st starttime r, project r)) tmp.

(** Line 160: the position of the first stop of that name. *)
Definition stop_position (stop : list (Stop Point * Q)) (stopname : string)
  : Py.result Q :=
  Py.iloc (map snd
             (filter (fun s => String.eqb (stop_stopname (fst s)) stopname) stop))
          0.

(** Lines 158-204: the body of the loop over the stop names, for the
    trajectory [tmp] of [car]; [ls] is the list of frames collected so
    far. *)
Definition stop_body (stop : list (Stop Point * Q)) (stopbuffer mintime : Q)
    (starttime : Z) (time_st_max : Q) (car : Z) (tmp : list (BusProject Point))
    (stopname : string) (ls : list (list (ArriveInfo Q)))
  : Py.result (list (list (ArriveInfo Q))) :=
  position ← stop_position stop stopname;
  let line_intersection :=
    intersection (bus_linestring starttime tmp)
      [(0%Q, position); (time_st_max, position)] stopbuffer in
  match line_intersection with
  | [] => mret ls
  | arrive =>
      arrive_new ← arrive_new mintime stopname car arrive;
      mret (ls ++ [arrive_new])
  end.

(** Lines 153-204: the body of the loop over the vehicles. *)
Definition car_body (data : list (BusProject Point)) (stop : list (Stop Point * Q))
    (stopbuffer mintime : Q) (starttime : Z) (time_st_max : Q)
    (car : Z) (ls : list (list (ArriveInfo Q)))
  : Py.result (list (list (ArriveInfo Q))) :=
  let tmp := filter (fun r => gps_VehicleId (gps r) =? car) data in
  if Nat.ltb 1 (length tmp)
  then Py.for_ (Pandas.drop_duplicates String.eqb
                  (map (fun s => stop_stopname (fst s)) stop))
         (stop_body stop stopbuffer mintime starttime time_st_max car tmp) ls
  else mret ls.

(** Lines 207-212: elapsed seconds back to timestamps. *)
Definition to_timestamp (starttime : Z) (r : ArriveInfo Q) : ArriveInfo Z :=
  mkArriveInfo
    (starttime + Pandas.Timedelta_s (Py.int (arrivetime r)))
    (starttime + Pandas.Timedelta_s (Py.int (leavetime r)))
    (stopname r) (VehicleId r).

(** Lines 142-204: the frames [ls] collected by the two loops. *)
Definition arrive_frames (data : list (BusProject Point)) (stop : list (Stop Point))
    (stopbuffer mintime : Q) : Py.result (list (list (ArriveInfo Q))) :=
  let stop := map (fun s => (s, lineshp_project (stop_geometry s))) stop in
  let starttime := Pandas.series_min (map (fun r => GPSDateTime (gps r)) data) in
  let time_st_max := Pandas.series_max (map (time_st starttime) data) in
  Py.for_ (Pandas.drop_duplicates Z.eqb (map (fun r => gps_VehicleId (gps r)) data))
    (car_body data stop stopbuffer mintime starttime time_st_max) [].

(** [busgps_arriveinfo(data, line, stop, stopbuffer=, mintime=, method=)]
    from line 100 on, on the cleaned [data] in the projected CRS. *)
Definition busgps_arriveinfo (data : list (GPS Point)) (stop : list (Stop Point))
    (stopbuffer mintime : Q) (method : Method)
  : Py.result (list (ArriveInfo Z)) :=
  data ← position_matching method data;
  let starttime := Pandas.series_min (map (fun r => GPSDateTime (gps r)) data) in
  ls ← arrive_frames data stop stopbuffer mintime;
  arrive_info ← Pandas.concat ls;
  mret (map (to_timestamp starttime) arrive_info).

End Geometry.

End Arriveinfo.

(* ================================================================= *)
(** ** busgps_onewaytime *)

Module Onewaytime.

(** A row of the frames [a], [b] and [c]: columns ['time'], [stopname]
    and [VehicleId]. *)
Record Event : Type := mkEvent {
  time : Z;
  ev_stopname : string;
  ev_VehicleId : Z
}.

(** A row of the result: the columns of [c], their shifted copies and the
    three computed columns. *)
Record OneWay : Type := mkOneWay {
  ow_time : Z;
  ow_stopname : string;
  ow_VehicleId : Z;
  time1 : Z;
  stopname1 : string;
  VehicleId1 : Z;
  duration : Q;
  shour : Z;
  direction : string
}.

Definition vehicle_time_leb (x y : Event) : bool :=
  (ev_VehicleId x <? ev_VehicleId y)
  || ((ev_VehicleId x =? ev_VehicleId y) && (time x <=? time y)).

(** Lines 264-266: the mask, on a row and its shifted copy (NaN on the
    last row, where every comparison is False). *)
Definition mask (start end_ : string) (r : Event) (next : option Event) : bool :=
  match next with
  | Some r1 =>
      (ev_VehicleId r =? ev_VehicleId r1)
      && String.eqb (ev_stopname r) start
      && String.eqb (ev_stopname r1) end_
  | None => false
  end.

(** Lines 268-270: the row of the result for a row of [c] and the one
    after it. *)
Definition oneway_row (start end_ : string) (r r1 : Event) : OneWay :=
  mkOneWay (time r) (ev_stopname r) (ev_VehicleId r)
    (time r1) (ev_stopname r1) (ev_VehicleId r1)
    (Pandas.total_seconds (time r1 - time r))
    (Pandas.hour (time r))
    (start ++ "-" ++ end_)%string.

(** Lines 259-261 (and 279-280): the sorted frame [c]. *)
Definition sorted_events (a b : list Event) : list Event :=
  Pandas.sort_values vehicle_time_leb (a ++ b).

(** Lines 262-270 (and 281-287): the trips read off the sorted frame. *)
Definition trips (start end_ : string) (c : list Event) : list OneWay :=
  let next := Pandas.shift_up c in
  let c := Pandas.mask_rows (combine c next)
             (zip_with (mask start end_) c next) in
  flat_map (fun rn => match snd rn with
                      | Some r1 => [oneway_row start end_ (fst rn) r1]
                      | None => []
                      end) c.

(** Lines 251-257: arrivals at [end_] and departures from [start]. *)
Definition arrivals_at (arrive_info : list (ArriveInfo Z)) (name : string)
  : list Event :=
  map (fun r => mkEvent (arrivetime r) (stopname r) (VehicleId r))
    (filter (fun r => String.eqb (stopname r) name) arrive_info).

Definition departures_from (arrive_info : list (ArriveInfo Z)) (name : string)
  : list Event :=
  map (fun r => mkEvent (leavetime r) (stopname r) (VehicleId r))
    (filter (fun r => String.eqb (stopname r) name) arrive_info).

(** Lines 251-271: [c1]. *)
Definition c1 (arrive_info : list (ArriveInfo Z)) (start end_ : string)
  : list OneWay :=
  let a := arrivals_at arrive_info end_ in
  let b := departures_from arrive_info start in
  trips start end_ (sorted_events a b).

(** Lines 273-288: [c2], the same for the other direction. *)
Definition c2 (arrive_info : list (ArriveInfo Z)) (start end_ : string)
  : list OneWay :=
  let a := arrivals_at arrive_info start in
  let b := departures_from arrive_info end_ in
  trips end_ start (sorted_events a b).

Definition busgps_onewaytime (arrive_info : list (ArriveInfo Z))
    (start end_ : string) : list OneWay :=
  c1 arrive_info start end_ ++ c2 arrive_info start end_.

End Onewaytime.

(* ================================================================= *)
(** * Notions used to state the properties *)



(** ** One-way trips, in the words of the trip aggregator

    The restricted stream of one direction holds the departures from the
    first stop and the arrivals at the second one, each with its tag, by
    vehicle and time (of two events of a vehicle at the same time the
    arrival comes first, as in the sorted frame of the code).  A trip is
    read off an event when it is a departure and the next event of the
    same vehicle is an arrival. *)

Module OnewaySpec.








End OnewaySpec.

(** ** The dwell merge, in the words of the dwell detector

    On the time-ordered list of arrival (flag 1) and departure (flag 0)
    events of one vehicle at one stop: a departure whose gap to the next
    event is below the threshold is dropped, and so is the event that
    follows it. *)

Module DwellSpec.

Import Arriveinfo.

Definition short_gap (minDwellGap : Q) (events : list Crossing) (i : nat)
  : bool :=
  match events !! i, events !! (S i) with
  | Some d, Some next =>
      (flag d =? 0) && Py.Qltb (time next - time d) minDwellGap
  | _, _ => false
  end.

Definition dropped (minDwellGap : Q) (events : list Crossing) (i : nat)
  : bool :=
  short_gap minDwellGap events i
  || match i with
     | O => false
     | S j => short_gap minDwellGap events j
     end.

Definition survivors (minDwellGap : Q) (events : list Crossing)
  : list Crossing :=
  map snd
    (filter (fun ie => negb (dropped minDwellGap events (fst ie)))
       (combine (seq 0 (length events)) events)).

(** The times of the surviving arrivals and of the surviving departures. *)
Definition surviving_A (minDwellGap : Q) (events : list Crossing) : list Q :=
  map time (filter (fun r => flag r =? 1) (survivors minDwellGap events)).

Definition surviving_D (minDwellGap : Q) (events : list Crossing) : list Q :=
  map time (filter (fun r => flag r =? 0) (survivors minDwellGap events)).

(** A timestamp that is the epoch plus a number of elapsed seconds. *)
Definition epoch_plus (starttime : Z) (elapsed : Q) (stamp : Z) : Prop :=
  (inject_Z stamp
   == inject_Z starttime + elapsed * inject_Z Pandas.ns_per_second)%Q.

(** The same computation as one pass over [c], carrying whether the row
    before was a departure with a short gap. *)
Fixpoint threshold_scan (mintime : Q) (prev : bool) (c : list Crossing)
  : list Crossing :=
  match c with
  | [] => []
  | r :: rest =>
      let short :=
        match rest with
        | r1 :: _ => Py.Qltb (time r1 - time r) mintime && (flag r =? 0)
        | [] => false
        end in
      (if short || prev then [] else [r]) ++ threshold_scan mintime short rest
  end.

(** The pieces of an intersection along a trajectory that goes forward in
    time: each ends no earlier than it starts, and strictly before the
    later ones start. *)
Fixpoint pieces_ordered (arrive : list LineString) : Prop :=
  match arrive with
  | [] => True
  | r :: rest =>
      (coords_0_0 r <= coords_last_0 r)%Q
      /\ Forall (fun r' => (coords_last_0 r < coords_0_0 r')%Q) rest
      /\ pieces_ordered rest
  end.

(** Arrival and departure of every piece, piece after piece. *)
Definition interleaved (arrive : list LineString) : list Crossing :=
  flat_map (fun r => [mkCrossing (coords_0_0 r) 1;
                      mkCrossing (coords_last_0 r) 0]) arrive.

(** Whether the piece after [r] starts within the threshold. *)
Definition gap_after (mintime : Q) (r : LineString) (rest : list LineString)
  : bool :=
  match rest with
  | r' :: _ => Py.Qltb (coords_0_0 r' - coords_last_0 r) mintime
  | [] => false
  end.

(** The arrival times and the departure times of a list of crossings. *)
Definition arrivals_of (c : list Crossing) : list Q :=
  map time (filter (fun r => flag r =? 1) c).

Definition departures_of (c : list Crossing) : list Q :=
  map time (filter (fun r => flag r =? 0) c).

(** The merged visits: [since] is the arrival of the visit under way and
    [r] its latest piece. *)
Fixpoint merge_from (mintime : Q) (since : Q) (r : LineString)
    (rest : list LineString) : list (Q * Q) :=
  match rest with
  | [] => [(since, coords_last_0 r)]
  | r' :: rest' =>
      if gap_after mintime r rest
      then merge_from mintime since r' rest'
      else (since, coords_last_0 r) :: merge_from mintime (coords_0_0 r') r' rest'
  end.

Definition merge_pieces (mintime : Q) (arrive : list LineString)
  : list (Q * Q) :=
  match arrive with
  | [] => []
  | r :: rest => merge_from mintime (coords_0_0 r) r rest
  end.


End DwellSpec.

(** ** The distance-limit matching *)

Module DislimitSpec.

(** What holds of the ['project'] column [col] at row [i] once iteration
    [i] of the loop has run: row [i + 1] has the position computed from
    the position of row [i]. *)
Definition matched_at {Point : Type} (lineshp_project : Point -> Q)
    (distance : Point -> Point -> Q) (geom : list Point) (col : list Q)
    (i : nat) : Prop :=
  exists g0 g1 prev,
    geom !! i = Some g0 /\ geom !! S i = Some g1
    /\ col !! i = Some prev
    /\ col !! S i
       = Some (Arriveinfo.dislimit_proj1 lineshp_project distance g0 g1 prev).

End DislimitSpec.

(** ** The arrival/departure table *)

Module ArriveSpec.

Import Arriveinfo.


(** The intersection computed at lines 163-167 of a run for the vehicle
    [car] and a stop at [position], on the matched table [data]. *)
Definition run_intersection {Point : Type}
    (intersection : list (Q * Q) -> list (Q * Q) -> Q -> list LineString)
    (data : list (BusProject Point)) (stopbuffer : Q) (car : Z) (position : Q)
  : list LineString :=
  let starttime := Pandas.series_min (map (fun r => GPSDateTime (gps r)) data) in
  let time_st_max := Pandas.series_max (map (time_st starttime) data) in
  intersection
    (bus_linestring starttime
       (filter (fun r => gps_VehicleId (gps r) =? car) data))
    [(0%Q, position); (time_st_max, position)] stopbuffer.

(** Two results agree: the same exception, or tables related by [R]. *)
Definition result_rel {A B : Type} (R : A -> B -> Prop)
    (x : Py.result A) (y : Py.result B) : Prop :=
  match x, y with
  | Py.Ok a, Py.Ok b => R a b
  | Py.Raise e1, Py.Raise e2 => e1 = e2
  | _, _ => False
  end.

End ArriveSpec.

(** ** Sample tables *)

Module Samples.

Definition clock (h m s : Z) : Z := ((h * 60 + m) * 60 + s) * Pandas.ns_per_second.

(** One vehicle leaves stop A at 08:00:00 and reaches stop B at 08:12:30. *)
Definition one_trip : list (ArriveInfo Z) :=
  [ mkArriveInfo (clock 7 58 0) (clock 8 0 0) "A"%string 1;
    mkArriveInfo (clock 8 12 30) (clock 8 14 0) "B"%string 1 ].

(** One vehicle leaves stop A and never reaches stop B. *)
Definition no_trip : list (ArriveInfo Z) :=
  [ mkArriveInfo (clock 7 58 0) (clock 8 0 0) "A"%string 1 ].




(** Stops S and E close to each other: the vehicle leaves both at
    08:00:10, then comes back to S at 08:00:15 and to E at 08:00:20. *)
Definition close_stops : list (ArriveInfo Z) :=
  [ mkArriveInfo (clock 8 0 0) (clock 8 0 10) "S"%string 1;
    mkArriveInfo (clock 8 0 5) (clock 8 0 10) "E"%string 1;
    mkArriveInfo (clock 8 0 20) (clock 8 0 30) "E"%string 1;
    mkArriveInfo (clock 8 0 15) (clock 8 0 40) "S"%string 1 ].

(** A straight route along the x axis, with the taxicab distance. *)
Definition Point : Type := (Q * Q)%type.

Definition lineshp_project (p : Point) : Q := fst p.

Definition distance (p q : Point) : Q :=
  (Qabs (fst p - fst q) + Qabs (snd p - snd q))%Q.

(** Vehicle 1 runs along the route; vehicle 2 is seen once. *)
Definition gps_rows : list (Arriveinfo.GPS Point) :=
  [ Arriveinfo.mkGPS 1 (clock 8 0 0) (0%Q, 0%Q);
    Arriveinfo.mkGPS 1 (clock 8 1 0) (500%Q, 0%Q);
    Arriveinfo.mkGPS 1 (clock 8 4 0) (2000%Q, 0%Q);
    Arriveinfo.mkGPS 2 (clock 8 2 0) (700%Q, 0%Q) ].

(** Stop S has two records; stop T is far down the route. *)
Definition stops : list (Arriveinfo.Stop Point) :=
  [ Arriveinfo.mkStop "S"%string (1000%Q, 0%Q);
    Arriveinfo.mkStop "T"%string (5000%Q, 0%Q);
    Arriveinfo.mkStop "S"%string (1200%Q, 0%Q) ].


Definition visit (position arrive leave : Q) : Arriveinfo.LineString :=
  Arriveinfo.mkLineString (arrive, position) [(leave, position)].

(** A trajectory that is within the buffer of position 1000 from
    [enter] to 130 s and again from 135 s to 180 s, and never within the
    buffer of another position. *)
Definition intersection_at (enter : Q) (traj seg : list (Q * Q)) (buf : Q)
  : list Arriveinfo.LineString :=
  match seg with
  | (_, position) :: _ =>
      if Qeq_bool position 1000
      then [visit position enter 130; visit position 135 180]
      else []
  | [] => []
  end.

Definition intersection := intersection_at 100.

(** The same with an entry half a second later. *)
Definition intersection_half := intersection_at (201 # 2).

(** The table of the run on these rows with the threshold 3, and with
    the threshold 10. *)
Definition dwell_rows_3 : list (ArriveInfo Z) :=
  [ mkArriveInfo (clock 8 1 40) (clock 8 2 10) "S"%string 1;
    mkArriveInfo (clock 8 2 15) (clock 8 3 0) "S"%string 1 ].

Definition dwell_rows_10 : list (ArriveInfo Z) :=
  [ mkArriveInfo (clock 8 1 40) (clock 8 3 0) "S"%string 1 ].

(** The rows with their nearest projection, and the stops with theirs. *)
Definition bus_project : list (Arriveinfo.BusProject Point) :=
  map (fun r => Arriveinfo.mkBusProject r
                  (lineshp_project (Arriveinfo.geometry r))) gps_rows.

Definition stop_project : list (Arriveinfo.Stop Point * Q) :=
  map (fun s => (s, lineshp_project (Arriveinfo.stop_geometry s))) stops.

(** A route on which a step of 1 along x is a step of 10 along the path. *)
Definition steep_project (p : Point) : Q := (10 * fst p)%Q.

Definition steep_rows : list (Arriveinfo.GPS Point) :=
  [ Arriveinfo.mkGPS 1 (clock 8 0 0) (0%Q, 0%Q);
    Arriveinfo.mkGPS 1 (clock 8 0 10) (1%Q, 0%Q);
    Arriveinfo.mkGPS 1 (clock 8 0 20) (1%Q, 0%Q);
    Arriveinfo.mkGPS 1 (clock 8 0 30) (3%Q, 0%Q) ].

End Samples.

(** ** Notions used by the further properties *)

Module MoreSpec.

Import Arriveinfo.


(** The ['project'] column of the distance-limit loop (the loop raises
    nothing, see [dislimit_project_total]). *)
Definition dislimit_column {Point : Type} (lineshp_project : Point -> Q)
    (distance : Point -> Point -> Q) (tmp : list (GPS Point)) : list Q :=
  match dislimit_project lineshp_project distance tmp with
  | Py.Ok col => col
  | Py.Raise _ => []
  end.

(** The frame of one vehicle appended to [tmps] at line 139. *)
Definition dislimit_frame {Point : Type} (lineshp_project : Point -> Q)
    (distance : Point -> Point -> Q) (data : list (GPS Point)) (vid : Z)
  : list (BusProject Point) :=
  zip_with mkBusProject (dislimit_tmp data vid)
    (dislimit_column lineshp_project distance (dislimit_tmp data vid)).

(** The number of rows of a vehicle. *)
Definition rows_of {Point : Type} (data : list (GPS Point)) (car : Z) : nat :=
  length (filter (fun r => gps_VehicleId r =? car) data).

(** The rows of a key are next to each other: between two rows of the
    same key there are only rows of that key. *)
Definition contiguous {A K : Type} (key : A -> K) (rows : list A) : Prop :=
  forall l1 a l2 b l3,
    rows = l1 ++ a :: l2 ++ b :: l3 -> key a = key b ->
    Forall (fun c => key c = key a) l2.

(** The same, row by row: a row is followed by a row of its key, or its
    key does not come back. *)
Fixpoint grouped {A K : Type} (key : A -> K) (rows : list A) : Prop :=
  match rows with
  | [] => True
  | a :: rest =>
      match rest with
      | [] => True
      | b :: _ => key a = key b \/ ~ In (key a) (map key rest)
      end
      /\ grouped key rest
  end.

(** The key of a row of the table returned: the vehicle and the stop. *)
Definition visit_key {T : Type} (r : ArriveInfo T) : Z * string :=
  (VehicleId r, stopname r).

End MoreSpec.
(* ================================================================= *)
(** * Properties *)

(** ** The Python and pandas primitives *)

Section ForFacts.

Context {X S : Type}.
Implicit Types (body : X -> S -> Py.result S).

Lemma for_app xs ys body st :
  Py.for_ (xs ++ ys) body st = Py.bind (Py.for_ xs body st) (Py.for_ ys body).
Proof.
  revert st; induction xs as [|x xs IH]; intros st; simpl; [reflexivity|].
  destruct (body x st) as [st'|e]; simpl; [apply IH|reflexivity].
Qed.

(** An iteration that leaves the state alone can be removed from the loop. *)
Lemma for_skip xs x ys body st :
  (forall st', body x st' = Py.Ok st') ->
  Py.for_ (xs ++ x :: ys) body st = Py.for_ (xs ++ ys) body st.
Proof.
  intros Hx. rewrite !for_app. simpl.
  destruct (Py.for_ xs body st) as [st'|e]; simpl; [|reflexivity].
  now rewrite Hx.
Qed.


(** A state predicate kept by every iteration holds when the loop ends. *)
Lemma for_invariant (I : S -> Prop) xs body st st' :
  (forall x s s', In x xs -> I s -> body x s = Py.Ok s' -> I s') ->
  I st -> Py.for_ xs body st = Py.Ok st' -> I st'.
Proof.
  revert st; induction xs as [|x xs IH]; intros st Hb HI; simpl.
  - intros [= <-]. exact HI.
  - destruct (body x st) as [s1|e] eqn:E; simpl; [|discriminate].
    apply IH.
    + intros y s s' Hy. apply Hb. now right.
    + eapply Hb; eauto. now left.
Qed.

End ForFacts.

Section SortFacts.

Context {A : Type} (leb : A -> A -> bool).

Lemma insert_In x y l : In y (Pandas.insert leb x l) <-> y = x \/ In y l.
Proof.
  induction l as [|z l IH]; simpl.
  - intuition.
  - destruct (leb x z); simpl; rewrite ?IH; intuition.
Qed.

Lemma sort_values_In y l : In y (Pandas.sort_values leb l) <-> In y l.
Proof.
  induction l as [|x l IH]; simpl; [tauto|].
  rewrite insert_In, IH. intuition.
Qed.

Lemma insert_length x l : length (Pandas.insert leb x l) = S (length l).
Proof.
  induction l as [|z l IH]; simpl; [reflexivity|].
  destruct (leb x z); simpl; congruence.
Qed.

Lemma sort_values_length l : length (Pandas.sort_values leb l) = length l.
Proof.
  induction l as [|x l IH]; simpl; [reflexivity|].
  rewrite insert_length. congruence.
Qed.


Lemma sort_values_app a b :
  Pandas.sort_values leb (a ++ b)
  = fold_right (Pandas.insert leb) (Pandas.sort_values leb b) a.
Proof. unfold Pandas.sort_values. apply fold_right_app. Qed.

(** [x] goes in front of the first row that does not sort before it. *)
Lemma insert_middle x l1 l2 :
  Forall (fun y => leb x y = false) l1 ->
  match l2 with [] => True | y :: _ => leb x y = true end ->
  Pandas.insert leb x (l1 ++ l2) = l1 ++ x :: l2.
Proof.
  induction l1 as [|z l1 IH]; simpl; intros H1 H2.
  - destruct l2 as [|y l2]; simpl; [reflexivity|now rewrite H2].
  - inversion H1; subst. rewrite H3. f_equal. now apply IH.
Qed.

Section SortedFacts.

Hypothesis leb_total : forall x y, leb x y = true \/ leb y x = true.
Hypothesis leb_trans :
  forall x y z, leb x y = true -> leb y z = true -> leb x z = true.



End SortedFacts.




End SortFacts.


(* ================================================================= *)
(** ** busgps_onewaytime *)

Section OnewayFacts.

Import Onewaytime OnewaySpec.

Ltac bool_to_Z :=
  repeat match goal with
    | H : _ = false |- _ => apply not_true_iff_false in H
    | |- _ = false => apply not_true_iff_false
    end;
  rewrite ?orb_true_iff, ?andb_true_iff, ?Z.ltb_lt, ?Z.eqb_eq, ?Z.leb_le,
    ?String.eqb_eq in *.




(** The vectorised computation of lines 262-270 as a scan of [c]. *)
Lemma trips_nil start end_ : trips start end_ [] = [].
Proof. reflexivity. Qed.

Lemma trips_one start end_ r : trips start end_ [r] = [].
Proof. reflexivity. Qed.

Lemma trips_cons start end_ r r1 rest :
  trips start end_ (r :: r1 :: rest)
  = (if mask start end_ r (Some r1) then [oneway_row start end_ r r1] else [])
    ++ trips start end_ (r1 :: rest).
Proof.
  unfold trips, Pandas.mask_rows.
  change (Pandas.shift_up (r :: r1 :: rest))
    with (Some r1 :: Pandas.shift_up (r1 :: rest)).
  cbn [combine zip_with filter].
  destruct (mask start end_ r (Some r1)); reflexivity.
Qed.

(** Every trip comes from a row of [c] at the first stop. *)
Lemma trips_In start end_ c t :
  In t (trips start end_ c) ->
  exists r r1, In r c /\ ev_stopname r = start /\ t = oneway_row start end_ r r1.
Proof.
  induction c as [|r [|r1 rest] IH]; [intros []|intros []|].
  rewrite trips_cons, in_app_iff. intros [Ht|Ht].
  - destruct (mask start end_ r (Some r1)) eqn:E; [|destruct Ht].
    destruct Ht as [<-|[]]. exists r, r1. split; [now left|]. split; [|reflexivity].
    simpl in E. bool_to_Z. tauto.
  - destruct (IH Ht) as (r' & r1' & Hin & Hs & ->).
    exists r', r1'. split; [now right|tauto].
Qed.



Lemma arrivals_at_stop info name :
  Forall (fun r => String.eqb (ev_stopname r) name = true) (arrivals_at info name).
Proof.
  unfold arrivals_at. rewrite Forall_map, Forall_forall.
  intros r Hr. apply filter_In in Hr. simpl. tauto.
Qed.

Lemma departures_from_stop info name :
  Forall (fun r => String.eqb (ev_stopname r) name = true)
    (departures_from info name).
Proof.
  unfold departures_from. rewrite Forall_map, Forall_forall.
  intros r Hr. apply filter_In in Hr. simpl. tauto.
Qed.


(** *** The code's test on stop names against the tags *)








End OnewayFacts.

(** *** The scenarios of the trip aggregator *)

Section OnewayClaims.

Import Onewaytime OnewaySpec.

Example onewaytime_one_trip :
  exists t, busgps_onewaytime Samples.one_trip "A" "B" = [t]
            /\ (duration t == 750)%Q /\ shour t = 8
            /\ direction t = "A-B"%string.
Proof. eexists. split; [reflexivity|]. now vm_compute. Qed.

Example onewaytime_no_trip :
  busgps_onewaytime Samples.no_trip "A" "B" = [].
Proof. reflexivity. Qed.










End OnewayClaims.

(* ================================================================= *)
(** ** The dwell merge of busgps_arriveinfo *)

Section DwellFacts.

Import Arriveinfo DwellSpec.

Lemma Qltb_lt x y : Py.Qltb x y = true <-> (x < y)%Q.
Proof.
  unfold Py.Qltb. rewrite negb_true_iff, <- not_true_iff_false, Qle_bool_iff.
  split; [apply Qnot_le_lt | apply Qlt_not_le].
Qed.

Lemma Qltb_mono x m1 m2 :
  (m1 <= m2)%Q -> Py.Qltb x m1 = true -> Py.Qltb x m2 = true.
Proof. rewrite !Qltb_lt. intros. lra. Qed.

(** *** The shifted columns, row by row *)

Lemma flag_1_one mintime r : flag_1 mintime [r] = [false].
Proof. reflexivity. Qed.

Lemma flag_1_cons mintime r r1 rest :
  flag_1 mintime (r :: r1 :: rest)
  = (Py.Qltb (time r1 - time r) mintime && (flag r =? 0))
      :: flag_1 mintime (r1 :: rest).
Proof. reflexivity. Qed.

Lemma flag_1_length mintime c : length (flag_1 mintime c) = length c.
Proof.
  induction c as [|r [|r1 rest] IH]; [reflexivity|reflexivity|].
  rewrite flag_1_cons. simpl length in *. now rewrite IH.
Qed.

Lemma fillna_Some {A} (v : A) l : Pandas.fillna v (map Some l) = l.
Proof. unfold Pandas.fillna. rewrite map_map. apply map_id. Qed.

Lemma flag_3_eq mintime c :
  flag_3 mintime c
  = zip_with orb (flag_1 mintime c) (false :: removelast (flag_1 mintime c)).
Proof.
  unfold flag_3, flag_2. destruct (flag_1 mintime c) as [|f F]; [reflexivity|].
  unfold Pandas.shift_down. change (Pandas.fillna false (None :: ?l))
    with (false :: Pandas.fillna false l).
  now rewrite fillna_Some.
Qed.

Lemma mask_rows_cons {A} (x : A) l (b : bool) m :
  Pandas.mask_rows (x :: l) (b :: m)
  = (if b then [x] else []) ++ Pandas.mask_rows l m.
Proof. unfold Pandas.mask_rows. simpl. now destruct b. Qed.

Lemma threshold_scan_masks mintime c prev :
  Pandas.mask_rows c
    (map negb (zip_with orb (flag_1 mintime c)
                 (prev :: removelast (flag_1 mintime c))))
  = threshold_scan mintime prev c.
Proof.
  revert prev. induction c as [|r [|r1 rest] IH]; intros prev.
  - reflexivity.
  - rewrite flag_1_one. simpl. now destruct prev.
  - rewrite flag_1_cons.
    set (short := Py.Qltb (time r1 - time r) mintime && (flag r =? 0)).
    assert (Hne : flag_1 mintime (r1 :: rest) <> []).
    { intros E. apply (f_equal (@length bool)) in E.
      rewrite flag_1_length in E. discriminate. }
    specialize (IH short).
    remember (flag_1 mintime (r1 :: rest)) as F eqn:EF.
    replace (removelast (short :: F)) with (short :: removelast F)
      by (destruct F; [congruence|reflexivity]).
    cbn [zip_with map]. rewrite mask_rows_cons, IH.
    change (threshold_scan mintime prev (r :: r1 :: rest))
      with ((if short || prev then [] else [r])
              ++ threshold_scan mintime short (r1 :: rest)).
    now destruct (short || prev).
Qed.

(** Lines 192-197 are one pass over [c]. *)
Lemma filter_threshold_scan mintime c :
  filter_threshold mintime c = threshold_scan mintime false c.
Proof.
  unfold filter_threshold. rewrite flag_3_eq. apply threshold_scan_masks.
Qed.

(** *** The pass drops the short departures and their successors *)

Lemma survivors_scan_from mintime pre c :
  map snd
    (filter (fun ie => negb (dropped mintime (pre ++ c) (fst ie)))
       (combine (seq (length pre) (length c)) c))
  = threshold_scan mintime
      (match length pre with
       | O => false
       | S j => short_gap mintime (pre ++ c) j
       end) c.
Proof.
  revert pre. induction c as [|r rest IH]; intros pre; [reflexivity|].
  cbn [length seq combine filter fst].
  assert (Hshort : short_gap mintime (pre ++ r :: rest) (length pre)
                   = match rest with
                     | r1 :: _ =>
                         Py.Qltb (time r1 - time r) mintime && (flag r =? 0)
                     | [] => false
                     end).
  { unfold short_gap. rewrite list_lookup_middle by reflexivity.
    rewrite lookup_app_r by lia.
    replace (S (length pre) - length pre)%nat with 1%nat by lia.
    destruct rest as [|r1 rest']; [reflexivity|]. apply andb_comm. }
  specialize (IH (pre ++ [r])).
  rewrite <- (app_assoc pre [r] rest) in IH.
  change ([r] ++ rest) with (r :: rest) in IH.
  replace (length (pre ++ [r])) with (S (length pre)) in IH
    by (rewrite length_app; simpl; lia).
  rewrite Hshort in IH.
  cbn [threshold_scan].
  unfold dropped at 1. rewrite Hshort.
  destruct (_ || _); cbn [negb map snd app]; now rewrite IH.
Qed.

Lemma filter_threshold_survivors mintime c :
  filter_threshold mintime c = survivors mintime c.
Proof.
  rewrite filter_threshold_scan. symmetry.
  exact (survivors_scan_from mintime [] c).
Qed.

(** *** A larger threshold keeps fewer arrivals *)

Lemma threshold_scan_arrivals_mono m1 m2 c p1 p2 :
  (m1 <= m2)%Q -> (p1 = true -> p2 = true) ->
  (length (filter (fun r => (flag r =? 1)%Z) (threshold_scan m2 p2 c))
   <= length (filter (fun r => (flag r =? 1)%Z) (threshold_scan m1 p1 c)))%nat.
Proof.
  intros Hm. revert p1 p2. induction c as [|r rest IH]; intros p1 p2 Hp;
    [reflexivity|].
  cbn [threshold_scan].
  set (s1 := match rest with
             | r1 :: _ => Py.Qltb (time r1 - time r) m1 && (flag r =? 0)
             | [] => false
             end).
  set (s2 := match rest with
             | r1 :: _ => Py.Qltb (time r1 - time r) m2 && (flag r =? 0)
             | [] => false
             end).
  assert (Hs : s1 = true -> s2 = true).
  { unfold s1, s2. destruct rest as [|r1 rest']; [congruence|].
    rewrite !andb_true_iff. intros [H1 H2]. split; [|exact H2].
    eapply Qltb_mono; eauto. }
  specialize (IH s1 s2 Hs).
  rewrite !filter_app, !length_app.
  destruct (flag r =? 1) eqn:Ef.
  - assert (s1 = false /\ s2 = false) as [E1 E2].
    { apply Z.eqb_eq in Ef. unfold s1, s2.
      destruct rest; rewrite ?Ef, ?andb_false_r; auto. }
    rewrite E1, E2 in *. simpl orb.
    destruct p1, p2; simpl; rewrite ?Ef; simpl; try lia.
  - destruct (s1 || p1), (s2 || p2); simpl; rewrite ?Ef; simpl; lia.
Qed.

(** *** Ordered pieces give alternating crossings *)

#[local] Abbreviation A_of r := (mkCrossing (coords_0_0 r) 1).
#[local] Abbreviation D_of r := (mkCrossing (coords_last_0 r) 0).

Lemma pieces_ordered_last r rest :
  pieces_ordered (r :: rest) ->
  Forall (fun r' => (coords_last_0 r < coords_last_0 r')%Q) rest.
Proof.
  intros (_ & Hr & Hrest). revert Hr Hrest.
  induction rest as [|r' rest IH]; [constructor|].
  intros Hr (H1 & H2 & H3). inversion Hr; subst.
  constructor; [lra|]. apply IH; [assumption|].
  destruct rest; [exact I|]. exact H3.
Qed.

Lemma sort_departures arrive :
  pieces_ordered arrive ->
  Pandas.sort_values time_leb (map (fun r => D_of r) arrive)
  = map (fun r => D_of r) arrive.
Proof.
  induction arrive as [|r rest IH]; [reflexivity|].
  intros Hord. pose proof (pieces_ordered_last _ _ Hord) as Hlast.
  destruct Hord as (_ & _ & Hrest).
  cbn [map Pandas.sort_values fold_right].
  change (fold_right (Pandas.insert time_leb) [] ?l)
    with (Pandas.sort_values time_leb l).
  rewrite (IH Hrest).
  apply (insert_middle time_leb _ []); [constructor|].
  destruct rest as [|r' rest']; [exact I|]. inversion Hlast; subst.
  unfold time_leb. simpl. apply Qle_bool_iff. lra.
Qed.

Lemma insert_arrivals pre Dpre :
  pieces_ordered pre ->
  Forall (fun y => Forall (fun r => (time y < coords_0_0 r)%Q) pre) Dpre ->
  fold_right (Pandas.insert time_leb) (Dpre ++ map (fun r => D_of r) pre)
    (map (fun r => A_of r) pre)
  = Dpre ++ interleaved pre.
Proof.
  revert Dpre. induction pre as [|r pre IH]; intros Dpre Hord HD; [reflexivity|].
  destruct Hord as (Hr & Hlater & Hord).
  cbn [map fold_right].
  rewrite (cons_middle (D_of r) Dpre), app_assoc, IH; [|exact Hord|].
  - rewrite <- app_assoc. cbn [app].
    change (interleaved (r :: pre)) with (A_of r :: D_of r :: interleaved pre).
    apply insert_middle.
    + eapply Forall_impl; [|exact HD]. intros y Hy. inversion Hy; subst.
      unfold time_leb. simpl. apply not_true_iff_false.
      rewrite Qle_bool_iff. lra.
    + unfold time_leb. simpl. now apply Qle_bool_iff.
  - apply Forall_app. split.
    + eapply Forall_impl; [|exact HD]. intros y Hy. now inversion Hy.
    + constructor; [|constructor]. exact Hlater.
Qed.

Lemma crossings_interleaved arrive :
  pieces_ordered arrive -> crossings arrive = interleaved arrive.
Proof.
  intros Hord. unfold crossings. rewrite sort_values_app, sort_departures by assumption.
  apply (insert_arrivals arrive []); [assumption|constructor].
Qed.

(** *** The pass over alternating crossings merges the pieces *)

Lemma threshold_scan_interleaved mintime prev r rest :
  threshold_scan mintime prev (interleaved (r :: rest))
  = (if prev then [] else [A_of r])
    ++ (if gap_after mintime r rest then [] else [D_of r])
    ++ threshold_scan mintime (gap_after mintime r rest) (interleaved rest).
Proof.
  change (interleaved (r :: rest)) with (A_of r :: D_of r :: interleaved rest).
  cbn [threshold_scan flag time]. rewrite andb_false_r. cbn [orb].
  f_equal.
  assert (E : match interleaved rest with
              | r1 :: _ =>
                  Py.Qltb (Arriveinfo.time r1 - coords_last_0 r) mintime
                  && (0 =? 0)
              | [] => false
              end = gap_after mintime r rest).
  { destruct rest; simpl; [reflexivity|apply andb_true_r]. }
  rewrite E, orb_false_r. reflexivity.
Qed.

Lemma arrivals_of_scan mintime prev r rest :
  arrivals_of (threshold_scan mintime prev (interleaved (r :: rest)))
  = (if prev then [] else [coords_0_0 r])
    ++ arrivals_of (threshold_scan mintime (gap_after mintime r rest)
                      (interleaved rest)).
Proof.
  rewrite threshold_scan_interleaved. unfold arrivals_of.
  rewrite !filter_app, !map_app.
  destruct prev, (gap_after mintime r rest); reflexivity.
Qed.

Lemma departures_of_scan mintime prev r rest :
  departures_of (threshold_scan mintime prev (interleaved (r :: rest)))
  = (if gap_after mintime r rest then [] else [coords_last_0 r])
    ++ departures_of (threshold_scan mintime (gap_after mintime r rest)
                        (interleaved rest)).
Proof.
  rewrite threshold_scan_interleaved. unfold departures_of.
  rewrite !filter_app, !map_app.
  destruct prev, (gap_after mintime r rest); reflexivity.
Qed.

Lemma scan_merge_from mintime since r rest :
  let c := threshold_scan mintime true (interleaved (r :: rest)) in
  length (departures_of c) = S (length (arrivals_of c))
  /\ combine (since :: arrivals_of c) (departures_of c)
     = merge_from mintime since r rest.
Proof.
  revert since r. induction rest as [|r' rest IH]; intros since r.
  - cbn zeta. rewrite arrivals_of_scan, departures_of_scan. split; reflexivity.
  - cbn zeta. rewrite arrivals_of_scan, departures_of_scan.
    cbn [merge_from gap_after app].
    destruct (Py.Qltb (coords_0_0 r' - coords_last_0 r) mintime).
    + apply IH.
    + destruct (IH (coords_0_0 r') r') as [IH1 IH2]. cbn zeta in IH1, IH2.
      rewrite arrivals_of_scan, departures_of_scan. cbn [app length combine].
      rewrite arrivals_of_scan, departures_of_scan in IH1, IH2.
      cbn [app combine] in IH1, IH2. rewrite IH2. split; [now rewrite IH1|reflexivity].
Qed.

Lemma pair_up_interleaved mintime stopname car arrive :
  pair_up stopname car (threshold_scan mintime false (interleaved arrive))
  = Py.Ok (map (fun p => mkArriveInfo (fst p) (snd p) stopname car)
             (merge_pieces mintime arrive)).
Proof.
  destruct arrive as [|r rest]; [reflexivity|].
  unfold pair_up, Pandas.set_column.
  change (map time (filter (fun r => flag r =? 1) ?c)) with (arrivals_of c).
  change (map time (filter (fun r => flag r =? 0) ?c)) with (departures_of c).
  destruct (scan_merge_from mintime (coords_0_0 r) r rest) as [Hlen Hzip].
  cbn zeta in Hlen, Hzip.
  rewrite arrivals_of_scan, departures_of_scan in *.
  cbn [app length] in *. rewrite Hlen, Nat.eqb_refl. cbn [mbind result_bind Py.bind mret result_ret].
  unfold merge_pieces. now rewrite <- Hzip.
Qed.

(** [arrive_new] on ordered pieces: no exception, and the merged visits. *)
Lemma arrive_new_ordered mintime stopname car arrive :
  pieces_ordered arrive ->
  arrive_new mintime stopname car arrive
  = Py.Ok (map (fun p => mkArriveInfo (fst p) (snd p) stopname car)
             (merge_pieces mintime arrive)).
Proof.
  intros Hord. unfold arrive_new.
  rewrite crossings_interleaved, filter_threshold_scan by assumption.
  apply pair_up_interleaved.
Qed.



End DwellFacts.

(* ================================================================= *)
(** ** The distance-limit matching of busgps_arriveinfo *)

Section DislimitFacts.

Import Arriveinfo.

Context {Point : Type}.
Variable lineshp_project : Point -> Q.
Variable distance : Point -> Point -> Q.
Variable geom : list Point.

#[local] Abbreviation body := (dislimit_body lineshp_project distance geom).
#[local] Abbreviation proj1 := (dislimit_proj1 lineshp_project distance).
#[local] Abbreviation matched_at :=
  (DislimitSpec.matched_at lineshp_project distance geom).

Lemma iloc_Some {A} (l : list A) i a : l !! i = Some a -> Py.iloc l i = Py.Ok a.
Proof. unfold Py.iloc. now intros ->. Qed.

Lemma loc_set_inside {A} i (v : A) col :
  (i < length col)%nat -> Pandas.loc_set i v col = <[i:=v]> col.
Proof.
  intros H. unfold Pandas.loc_set.
  destruct (Nat.ltb_spec i (length col)); [reflexivity|lia].
Qed.

Lemma dislimit_body_later i col :
  (1 <= i)%nat -> (S i < length geom)%nat -> length col = length geom ->
  exists g0 g1 prev,
    geom !! i = Some g0 /\ geom !! S i = Some g1 /\ col !! i = Some prev
    /\ body i col = Py.Ok (<[S i := proj1 g0 g1 prev]> col).
Proof.
  intros Hi Hlt Hlen.
  destruct (lookup_lt_is_Some_2 geom i ltac:(lia)) as [g0 Hg0].
  destruct (lookup_lt_is_Some_2 geom (S i) ltac:(lia)) as [g1 Hg1].
  destruct (lookup_lt_is_Some_2 col i ltac:(lia)) as [prev Hprev].
  exists g0, g1, prev. repeat split; try assumption.
  unfold dislimit_body. destruct (Nat.eqb_spec i 0) as [->|_]; [lia|].
  rewrite (iloc_Some _ _ _ Hprev). cbn [mbind result_bind Py.bind mret result_ret].
  rewrite Nat.add_1_r, (iloc_Some _ _ _ Hg1), (iloc_Some _ _ _ Hg0).
  cbn [mbind result_bind Py.bind mret result_ret].
  now rewrite loc_set_inside by lia.
Qed.

Lemma dislimit_loop_later m : forall k col,
  (1 <= k)%nat -> (k + m < length geom)%nat -> length col = length geom ->
  exists col',
    Py.for_ (seq k m) body col = Py.Ok col'
    /\ length col' = length geom
    /\ (forall j, (j <= k)%nat -> col' !! j = col !! j)
    /\ (forall i, (k <= i < k + m)%nat -> matched_at col' i).
Proof.
  induction m as [|m IH]; intros k col Hk Hkm Hlen.
  - exists col. repeat split; auto. intros i Hi. lia.
  - destruct (dislimit_body_later k col Hk ltac:(lia) Hlen)
      as (g0 & g1 & prev & Hg0 & Hg1 & Hprev & Hbody).
    cbn [seq Py.for_]. rewrite Hbody. cbn [Py.bind].
    destruct (IH (S k) (<[S k := proj1 g0 g1 prev]> col) ltac:(lia) ltac:(lia))
      as (col' & Hfor & Hlen' & Hkeep & Hstep).
    { now rewrite length_insert. }
    exists col'. split; [exact Hfor|]. split; [exact Hlen'|]. split.
    + intros j Hj. rewrite Hkeep by lia. apply list_lookup_insert_ne. lia.
    + intros i Hi. destruct (Nat.eq_dec i k) as [->|Hne]; [|apply Hstep; lia].
      exists g0, g1, prev. repeat split; try assumption.
      * rewrite Hkeep by lia. rewrite list_lookup_insert_ne by lia. exact Hprev.
      * rewrite Hkeep by lia. apply list_lookup_insert_eq. lia.
Qed.

Lemma dislimit_loop :
  exists col,
    Py.for_ (seq 0 (length geom - 1)) body (repeat 0%Q (length geom)) = Py.Ok col
    /\ length col = length geom
    /\ (forall i, (S i < length geom)%nat -> matched_at col i).
Proof.
  destruct geom as [|g0 [|g1 rest]] eqn:Eg.
  - exists []. repeat split. simpl. intros i Hi. lia.
  - exists [0%Q]. repeat split. simpl. intros i Hi. lia.
  - rewrite <- Eg.
    assert (Hlen : length geom = S (S (length rest))) by now rewrite Eg.
    rewrite Hlen. replace (S (S (length rest)) - 1)%nat with (S (length rest)) by lia.
    cbn [seq Py.for_].
    set (col1 := <[1%nat := proj1 g0 g1 (lineshp_project g0)]>
                   (<[0%nat := lineshp_project g0]>
                      (repeat 0%Q (S (S (length rest)))))).
    assert (Hbody : body 0%nat (repeat 0%Q (S (S (length rest)))) = Py.Ok col1).
    { unfold dislimit_body. rewrite Eg. reflexivity. }
    rewrite Hbody. cbn [Py.bind].
    assert (Hlen1 : length col1 = length geom).
    { unfold col1. now rewrite !length_insert, repeat_length. }
    destruct (dislimit_loop_later (length rest) 1 col1 ltac:(lia) ltac:(lia) Hlen1)
      as (col' & Hfor & Hlen' & Hkeep & Hstep).
    exists col'. split; [exact Hfor|]. split; [lia|].
    intros i Hi. destruct i as [|i]; [|apply Hstep; lia].
    exists g0, g1, (lineshp_project g0). rewrite Eg.
    repeat split; rewrite Hkeep by lia; reflexivity.
Qed.

End DislimitFacts.

(* ================================================================= *)
(** ** The loops of busgps_arriveinfo *)

Section LoopFacts.

Context {X S : Type}.

Lemma for_unchanged xs (body : X -> S -> Py.result S) st :
  (forall x, In x xs -> body x st = Py.Ok st) -> Py.for_ xs body st = Py.Ok st.
Proof.
  induction xs as [|x xs IH]; intros H; [reflexivity|].
  simpl. rewrite H by now left. simpl. apply IH. intros y Hy. apply H. now right.
Qed.

Lemma for_total xs (body : X -> S -> Py.result S) st :
  (forall x s, exists s', body x s = Py.Ok s') ->
  exists st', Py.for_ xs body st = Py.Ok st'.
Proof.
  intros H. revert st. induction xs as [|x xs IH]; intros st; [now exists st|].
  simpl. destruct (H x st) as [s' ->]. simpl. apply IH.
Qed.

(** An invariant that records the elements already met. *)
Lemma for_invariant_fresh (I : list X -> S -> Prop)
    (body : X -> S -> Py.result S) xs : forall done st st',
  Py.for_ xs body st = Py.Ok st' ->
  NoDup xs -> (forall x, In x xs -> ~ In x done) ->
  (forall d x s s', In x xs -> ~ In x d -> I d s -> body x s = Py.Ok s' ->
                    I (x :: d) s') ->
  I done st -> exists d, I d st'.
Proof.
  induction xs as [|x xs IH]; intros done st st'; simpl.
  - intros [= <-] _ _ _ HI. now exists done.
  - destruct (body x st) as [s1|e] eqn:E; simpl; [|discriminate].
    intros Hfor Hnd Hfresh Hstep HI.
    inversion Hnd as [|? ? Hx Hnd']; subst.
    apply (IH (x :: done) s1 st' Hfor).
    + exact Hnd'.
    + intros y Hy [<-|Hin]; [contradiction|]. apply (Hfresh y); [now right|exact Hin].
    + intros d y s s' Hy. apply Hstep. now right.
    + apply (Hstep done x st); [now left| |exact HI|exact E].
      apply Hfresh. now left.
Qed.

(** Two loops over the same elements, iteration by iteration. *)
Lemma for_rel (R : S -> S -> Prop) (body1 body2 : X -> S -> Py.result S) xs :
  forall st1 st2 o1 o2,
  (forall x s1 s2 s1' s2', R s1 s2 -> body1 x s1 = Py.Ok s1' ->
                           body2 x s2 = Py.Ok s2' -> R s1' s2') ->
  R st1 st2 ->
  Py.for_ xs body1 st1 = Py.Ok o1 -> Py.for_ xs body2 st2 = Py.Ok o2 ->
  R o1 o2.
Proof.
  induction xs as [|x xs IH]; intros st1 st2 o1 o2 Hstep HR; simpl.
  - now intros [= <-] [= <-].
  - destruct (body1 x st1) as [s1|] eqn:E1; simpl; [|discriminate].
    destruct (body2 x st2) as [s2|] eqn:E2; simpl; [|discriminate].
    apply IH; [exact Hstep|]. eapply Hstep; eauto.
Qed.

Lemma for_result_rel (R : S -> S -> Prop) (body1 body2 : X -> S -> Py.result S) xs :
  forall st1 st2,
  (forall x, In x xs -> forall s1 s2, R s1 s2 ->
             ArriveSpec.result_rel R (body1 x s1) (body2 x s2)) ->
  R st1 st2 ->
  ArriveSpec.result_rel R (Py.for_ xs body1 st1) (Py.for_ xs body2 st2).
Proof.
  induction xs as [|x xs IH]; intros st1 st2 Hstep HR; simpl; [exact HR|].
  pose proof (Hstep x ltac:(now left) st1 st2 HR) as Hx.
  destruct (body1 x st1) as [s1|e1], (body2 x st2) as [s2|e2]; simpl in *;
    try contradiction; [|exact Hx].
  apply IH; [|exact Hx]. intros y Hy. apply Hstep. now right.
Qed.

End LoopFacts.

Section ListFacts.

Context {A : Type}.

Lemma drop_duplicates_In (eqb : A -> A -> bool) x l :
  In x (Pandas.drop_duplicates eqb l) -> In x l.
Proof.
  induction l as [|y l IH]; simpl; [tauto|].
  intros [->|H]; [now left|]. apply filter_In in H as [H _]. right. now apply IH.
Qed.

Lemma drop_duplicates_NoDup (eqb : A -> A -> bool) l :
  (forall x y, eqb x y = true <-> x = y) ->
  NoDup (Pandas.drop_duplicates eqb l).
Proof.
  intros Heqb. induction l as [|y l IH]; simpl; constructor.
  - intros H. apply filter_In in H as [_ H].
    rewrite (proj2 (Heqb y y) eq_refl) in H. discriminate.
  - now apply NoDup_filter.
Qed.




End ListFacts.


Section ArriveFacts.

Import Arriveinfo DwellSpec ArriveSpec.

Context {Point : Type}.
Variable lineshp_project : Point -> Q.
Variable distance : Point -> Point -> Q.
Variable intersection : list (Q * Q) -> list (Q * Q) -> Q -> list LineString.

(** *** The position matching raises nothing but on an empty table *)

Lemma dislimit_project_total (tmp : list (GPS Point)) :
  exists col, dislimit_project lineshp_project distance tmp = Py.Ok col.
Proof.
  unfold dislimit_project.
  destruct (dislimit_loop lineshp_project distance (map geometry tmp))
    as (col & Hcol & _).
  rewrite length_map in Hcol. now exists col.
Qed.

Lemma position_matching_raise method (data : list (GPS Point)) e :
  position_matching lineshp_project distance method data = Py.Raise e ->
  e = Py.ValueError_NoObjectsToConcatenate.
Proof.
  destruct method; simpl; [discriminate|].
  match goal with
  | |- context [Py.for_ ?xs ?body ?st] =>
      destruct (for_total xs body st) as [tmps ->]
  end.
  - intros vid tmps.
    destruct (dislimit_project_total (dislimit_tmp data vid)) as [col ->].
    simpl. eauto.
  - simpl. destruct tmps; simpl; [now intros [= <-]|discriminate].
Qed.

(** *** The position of a stop name *)

Lemma stop_position_In (stop : list (Stop Point * Q)) n :
  In n (map (fun s => stop_stopname (fst s)) stop) ->
  exists s, In s stop /\ stop_stopname (fst s) = n
            /\ stop_position stop n = Py.Ok (snd s).
Proof.
  unfold stop_position. induction stop as [|s stop IH]; simpl; [tauto|].
  intros Hin. destruct (String.eqb_spec (stop_stopname (fst s)) n) as [E|E].
  - exists s. split; [now left|]. split; [exact E|reflexivity].
  - destruct Hin as [Hin|Hin]; [contradiction|].
    destruct (IH Hin) as (s' & Hs' & Hn & Hp).
    exists s'. split; [now right|]. split; assumption.
Qed.

Lemma stop_names_In (stop : list (Stop Point * Q)) n :
  In n (Pandas.drop_duplicates String.eqb
          (map (fun s => stop_stopname (fst s)) stop)) ->
  exists s, In s stop /\ stop_stopname (fst s) = n
            /\ stop_position stop n = Py.Ok (snd s).
Proof. intros H. apply stop_position_In. eapply drop_duplicates_In, H. Qed.

Lemma stop_position_Ok (stop : list (Stop Point * Q)) n position :
  stop_position stop n = Py.Ok position ->
  exists s, In s stop /\ snd s = position.
Proof.
  unfold stop_position, Py.iloc.
  destruct (filter _ stop) as [|s l] eqn:E; simpl; [discriminate|].
  intros [= <-]. exists s. split; [|reflexivity].
  assert (Hin : In s (s :: l)) by now left.
  rewrite <- E in Hin. now apply filter_In in Hin.
Qed.

(** *** Vehicles and stops that are skipped *)

Lemma car_body_skipped data stop stopbuffer mintime starttime time_st_max car ls :
  (length (filter (fun r : BusProject Point => (gps_VehicleId (gps r) =? car)%Z)
             data) < 2)%nat ->
  car_body intersection data stop stopbuffer mintime starttime time_st_max car ls
  = Py.Ok ls.
Proof.
  intros H. unfold car_body.
  destruct (Nat.ltb_spec 1 (length (filter (fun r => gps_VehicleId (gps r) =? car) data)));
    [lia|reflexivity].
Qed.

Lemma stop_body_skipped stop stopbuffer mintime starttime time_st_max car
    (tmp : list (BusProject Point)) stopname position ls :
  stop_position stop stopname = Py.Ok position ->
  intersection (bus_linestring starttime tmp)
    [(0%Q, position); (time_st_max, position)] stopbuffer = [] ->
  stop_body intersection stop stopbuffer mintime starttime time_st_max car tmp
    stopname ls = Py.Ok ls.
Proof.
  intros Hpos Hempty. unfold stop_body. rewrite Hpos. simpl. now rewrite Hempty.
Qed.

(** *** No frame at all when no intersection is met *)

Lemma arrive_frames_none (data : list (BusProject Point)) stop stopbuffer mintime :
  (forall car s,
      In car (map (fun r => gps_VehicleId (gps r)) data) -> In s stop ->
      run_intersection intersection data stopbuffer car
        (lineshp_project (stop_geometry s)) = []) ->
  arrive_frames lineshp_project intersection data stop stopbuffer mintime
  = Py.Ok [].
Proof.
  intros Hnone. unfold arrive_frames. apply for_unchanged. intros car Hcar.
  apply drop_duplicates_In in Hcar.
  unfold car_body. destruct (Nat.ltb 1 _); [|reflexivity].
  apply for_unchanged. intros n Hn.
  apply stop_names_In in Hn as (s & Hs & _ & Hpos).
  apply in_map_iff in Hs as (s0 & <- & Hs0).
  eapply stop_body_skipped; [exact Hpos|]. simpl.
  apply (Hnone car s0 Hcar Hs0).
Qed.

(** *** Only the first stop of a name is read *)




(** *** A larger threshold gives no more rows *)

Lemma pair_up_length n car c f :
  pair_up n car c = Py.Ok f -> length f = length (arrivals_of c).
Proof.
  unfold pair_up, Pandas.set_column, arrivals_of.
  destruct (Nat.eqb_spec (length (map time (filter (fun r => flag r =? 0) c)))
              (length (map time (filter (fun r => flag r =? 1) c)))) as [E|E];
    simpl; [|discriminate].
  intros [= <-]. rewrite length_map, length_combine, E. apply Nat.min_id.
Qed.

Lemma arrive_new_mono m1 m2 n car arrive f1 f2 :
  (m1 <= m2)%Q ->
  arrive_new m1 n car arrive = Py.Ok f1 ->
  arrive_new m2 n car arrive = Py.Ok f2 ->
  (length f2 <= length f1)%nat.
Proof.
  unfold arrive_new. intros Hm H1 H2.
  rewrite (pair_up_length _ _ _ _ H1), (pair_up_length _ _ _ _ H2).
  rewrite !filter_threshold_scan. unfold arrivals_of. rewrite !length_map.
  now apply threshold_scan_arrivals_mono.
Qed.

#[local] Abbreviation no_more :=
  (Forall2 (fun f1 f2 : list (ArriveInfo Q) => (length f2 <= length f1)%nat)).

Lemma stop_body_mono m1 m2 stop stopbuffer starttime time_st_max car
    (tmp : list (BusProject Point)) n ls1 ls2 :
  (m1 <= m2)%Q -> no_more ls1 ls2 ->
  forall o1 o2,
    stop_body intersection stop stopbuffer m1 starttime time_st_max car tmp n ls1
    = Py.Ok o1 ->
    stop_body intersection stop stopbuffer m2 starttime time_st_max car tmp n ls2
    = Py.Ok o2 ->
    no_more o1 o2.
Proof.
  intros Hm HR o1 o2. unfold stop_body.
  destruct (stop_position stop n) as [position|e]; simpl; [|discriminate].
  destruct (intersection _ _ _) as [|r arrive]; [now intros [= <-] [= <-]|].
  destruct (arrive_new m1 n car (r :: arrive)) as [f1|] eqn:E1; simpl; [|discriminate].
  destruct (arrive_new m2 n car (r :: arrive)) as [f2|] eqn:E2; simpl; [|discriminate].
  intros [= <-] [= <-]. apply Forall2_app; [exact HR|].
  constructor; [|constructor]. eapply arrive_new_mono; eauto.
Qed.

Lemma arrive_frames_mono m1 m2 (data : list (BusProject Point)) stop stopbuffer
    ls1 ls2 :
  (m1 <= m2)%Q ->
  arrive_frames lineshp_project intersection data stop stopbuffer m1 = Py.Ok ls1 ->
  arrive_frames lineshp_project intersection data stop stopbuffer m2 = Py.Ok ls2 ->
  no_more ls1 ls2.
Proof.
  intros Hm. unfold arrive_frames.
  apply (for_rel no_more); [|constructor].
  intros car s1 s2 s1' s2' HR. unfold car_body.
  destruct (Nat.ltb 1 _); [|now intros [= <-] [= <-]].
  apply (for_rel no_more); [|exact HR].
  intros n t1 t2 t1' t2' HR'. now apply stop_body_mono.
Qed.

Lemma no_more_concat (ls1 ls2 : list (list (ArriveInfo Q))) :
  no_more ls1 ls2 -> (length (List.concat ls2) <= length (List.concat ls1))%nat.
Proof.
  induction 1 as [|f1 f2 ls1 ls2 Hf Hls IH]; simpl; [lia|].
  rewrite !length_app. lia.
Qed.

(** With ordered pieces the merge raises nothing, whatever the threshold. *)
Lemma stop_body_ordered_rel m1 m2 stop stopbuffer starttime time_st_max car
    (tmp : list (BusProject Point)) n ls1 ls2 :
  (forall s, In s stop ->
             pieces_ordered
               (intersection (bus_linestring starttime tmp)
                  [(0%Q, snd s); (time_st_max, snd s)] stopbuffer)) ->
  (m1 <= m2)%Q -> no_more ls1 ls2 ->
  result_rel no_more
    (stop_body intersection stop stopbuffer m1 starttime time_st_max car tmp n ls1)
    (stop_body intersection stop stopbuffer m2 starttime time_st_max car tmp n ls2).
Proof.
  intros Hord Hm HR.
  pose proof (stop_body_mono m1 m2 stop stopbuffer starttime time_st_max car
                tmp n ls1 ls2 Hm HR) as Hmono.
  unfold stop_body in *.
  destruct (stop_position stop n) as [position|e] eqn:Epos; simpl in *;
    [|reflexivity].
  apply stop_position_Ok in Epos as (s & Hs & <-). specialize (Hord s Hs).
  destruct (intersection _ _ _) as [|r arrive]; [exact HR|].
  rewrite !arrive_new_ordered in * by assumption. simpl in *.
  now apply Hmono.
Qed.

Lemma arrive_frames_ordered_rel m1 m2 (data : list (BusProject Point)) stop
    stopbuffer :
  (forall car s,
      In car (map (fun r => gps_VehicleId (gps r)) data) -> In s stop ->
      pieces_ordered
        (run_intersection intersection data stopbuffer car
           (lineshp_project (stop_geometry s)))) ->
  (m1 <= m2)%Q ->
  result_rel no_more
    (arrive_frames lineshp_project intersection data stop stopbuffer m1)
    (arrive_frames lineshp_project intersection data stop stopbuffer m2).
Proof.
  intros Hord Hm. unfold arrive_frames.
  apply (for_result_rel no_more); [|constructor].
  intros car Hcar s1 s2 HR. apply drop_duplicates_In in Hcar. unfold car_body.
  destruct (Nat.ltb 1 _); [|exact HR].
  apply (for_result_rel no_more); [|exact HR].
  intros n _ t1 t2 HR'. apply stop_body_ordered_rel; [|exact Hm|exact HR'].
  intros s Hs. apply in_map_iff in Hs as (s0 & <- & Hs0).
  apply (Hord car s0 Hcar Hs0).
Qed.

(** *** Ordered pieces give ordered visits *)




Lemma concat_snoc {A} (ls : list (list A)) f :
  List.concat (ls ++ [f]) = List.concat ls ++ f.
Proof. rewrite concat_app. simpl. now rewrite app_nil_r. Qed.




End ArriveFacts.

(* ================================================================= *)
(** ** busgps_arriveinfo: the properties *)

Section ArriveClaims.

Import Arriveinfo DwellSpec DislimitSpec ArriveSpec.

(** *** The scenarios of the dwell detector *)

Example arrive_new_one_visit :
  arrive_new 300 "S" 1 [Samples.visit 1000 100 130]
  = Py.Ok [mkArriveInfo 100%Q 130%Q "S"%string 1].
Proof. reflexivity. Qed.

Example arrive_new_short_excursion :
  arrive_new 10 "S" 1 [Samples.visit 1000 100 130; Samples.visit 1000 135 180]
  = Py.Ok [mkArriveInfo 100%Q 180%Q "S"%string 1].
Proof. reflexivity. Qed.

Example arriveinfo_run :
  busgps_arriveinfo Samples.lineshp_project Samples.distance
    Samples.intersection Samples.gps_rows Samples.stops 200 10 method_project
  = Py.Ok [mkArriveInfo (Samples.clock 8 1 40) (Samples.clock 8 3 0) "S"%string 1].
Proof. reflexivity. Qed.

Context {Point : Type}.
Variable lineshp_project : Point -> Q.
Variable distance : Point -> Point -> Q.
Variable intersection : list (Q * Q) -> list (Q * Q) -> Q -> list LineString.

(** *** C6 *)

Lemma lookup_map {A B} (f : A -> B) l i :
  (map f l) !! i = option_map f (l !! i).
Proof.
  revert i. induction l as [|x l IH]; intros [|i]; simpl; auto.
Qed.

Lemma dislimit_proj1_cases (g0 g1 : Point) prev :
  let d := distance g1 g0 in
  let p2 := lineshp_project g1 in
  let delta := (p2 - prev)%Q in
  let next := dislimit_proj1 lineshp_project distance g0 g1 prev in
  (d == 0 -> next = prev)%Q
  /\ (d < Qabs delta -> next == prev + Py.np_sign delta * d)%Q
  /\ (~ d == 0 -> ~ d < Qabs delta -> next = p2)%Q.
Proof.
  cbn zeta. unfold dislimit_proj1.
  destruct (Qeq_bool (distance g1 g0) 0) eqn:E0.
  - apply Qeq_bool_iff in E0. repeat split.
    + intros _. rewrite E0. ring.
    + intros H. contradiction.
  - apply Qeq_bool_neq in E0.
    destruct (Py.Qltb (distance g1 g0) (Qabs (lineshp_project g1 - prev))) eqn:E1.
    + apply Qltb_lt in E1. repeat split.
      * intros H. contradiction.
      * intros _. ring.
      * intros _ H. contradiction.
    + apply not_true_iff_false in E1. rewrite Qltb_lt in E1. repeat split.
      * intros H. contradiction.
      * intros H. contradiction.
Qed.

(** C6: under the distance-limit method, for every vehicle the loop over
    its time-ordered rows raises nothing and, for every two consecutive
    rows [i] and [i + 1], with [d] the distance between their points, [p2]
    the projection of the second point and [delta] the difference of [p2]
    and the position given to row [i], the position given to row [i + 1]
    is that of row [i] when [d = 0], that of row [i] plus
    [sign(delta) * d] when [|delta| > d], and [p2] otherwise. *)
Theorem C6_dislimit_positions (data : list (GPS Point)) (vid : Z) :
  let tmp := dislimit_tmp data vid in
  exists col,
    dislimit_project lineshp_project distance tmp = Py.Ok col
    /\ length col = length tmp
    /\ forall i fix0 fix1 prev,
        tmp !! i = Some fix0 -> tmp !! S i = Some fix1 ->
        col !! i = Some prev ->
        let d := distance (geometry fix1) (geometry fix0) in
        let p2 := lineshp_project (geometry fix1) in
        let delta := (p2 - prev)%Q in
        exists next,
          col !! S i = Some next
          /\ (d == 0 -> next = prev)%Q
          /\ (d < Qabs delta -> next == prev + Py.np_sign delta * d)%Q
          /\ (~ d == 0 -> ~ d < Qabs delta -> next = p2)%Q.
Proof.
  intros tmp.
  destruct (dislimit_loop lineshp_project distance (map geometry tmp))
    as (col & Hcol & Hlen & Hstep).
  rewrite length_map in Hcol, Hlen, Hstep.
  exists col. split; [exact Hcol|]. split; [exact Hlen|].
  intros i fix0 fix1 prev H0 H1 Hprev.
  destruct (Hstep i) as (g0 & g1 & prev' & Hg0 & Hg1 & Hp & Hn).
  { apply lookup_lt_Some in H1. exact H1. }
  rewrite lookup_map, H0 in Hg0. rewrite lookup_map, H1 in Hg1.
  injection Hg0 as <-. injection Hg1 as <-.
  rewrite Hprev in Hp. injection Hp as <-.
  eexists. split; [exact Hn|]. apply dislimit_proj1_cases.
Qed.

(** *** C2 *)

Lemma int_whole (n : Z) : Py.int (inject_Z n) = n.
Proof. unfold Py.int. simpl. apply Z.quot_1_r. Qed.

(** On whole numbers of seconds nothing is cut off. *)
Lemma to_timestamp_whole (starttime arrive leave : Z) (stopname : string)
    (car : Z) :
  to_timestamp starttime
    (mkArriveInfo (inject_Z arrive) (inject_Z leave) stopname car)
  = mkArriveInfo (starttime + Pandas.Timedelta_s arrive)
      (starttime + Pandas.Timedelta_s leave) stopname car.
Proof. unfold to_timestamp. simpl. now rewrite !int_whole. Qed.

(** C2 (amended): in the dwell merge, on the time-ordered list [c] of the
    raw arrivals and departures of one vehicle at one stop, exactly the
    departures whose gap to the next event is below [mintime] are dropped
    together with the event that follows each of them; the i-th surviving
    arrival is paired with the i-th surviving departure (a ValueError is
    raised when they are not as many); and the timestamps of a row are the
    epoch plus its elapsed seconds truncated to whole seconds. *)
Theorem C2_dwell_merge (mintime : Q) (c : list Crossing) (stopname : string)
    (car starttime : Z) :
  filter_threshold mintime c = survivors mintime c
  /\ pair_up stopname car (filter_threshold mintime c)
     = (if Nat.eqb (length (surviving_D mintime c))
             (length (surviving_A mintime c))
        then Py.Ok (map (fun ad => mkArriveInfo (fst ad) (snd ad) stopname car)
                      (combine (surviving_A mintime c) (surviving_D mintime c)))
        else Py.Raise Py.ValueError_LengthMismatch)
  /\ forall r : ArriveInfo Q,
       epoch_plus starttime (inject_Z (Py.int (arrivetime r)))
         (arrivetime (to_timestamp starttime r))
       /\ epoch_plus starttime (inject_Z (Py.int (leavetime r)))
            (leavetime (to_timestamp starttime r)).
Proof.
  split; [apply filter_threshold_survivors|]. split.
  - unfold pair_up, Pandas.set_column, surviving_A, surviving_D.
    rewrite filter_threshold_survivors.
    now destruct (Nat.eqb _ _).
  - intros r. unfold epoch_plus, to_timestamp, Pandas.Timedelta_s. simpl.
    rewrite !inject_Z_plus, !inject_Z_mult. split; reflexivity.
Qed.

(** C2, as stated, fails on the timestamps: a visit entered 100.5 s after
    the epoch 08:00:00 is reported with the arrival time 08:01:40, which is
    not the epoch plus the surviving elapsed time. *)
Lemma C2_timestamps_truncated :
  busgps_arriveinfo Samples.lineshp_project Samples.distance
    Samples.intersection_half Samples.gps_rows Samples.stops 200 3
    method_project
  = Py.Ok [mkArriveInfo (Samples.clock 8 1 40) (Samples.clock 8 2 10) "S"%string 1;
           mkArriveInfo (Samples.clock 8 2 15) (Samples.clock 8 3 0) "S"%string 1]
  /\ surviving_A 3 (crossings (Samples.intersection_half [] [(0, 1000)] 200))%Q
     = [(201 # 2)%Q; 135%Q]
  /\ ~ epoch_plus (Samples.clock 8 0 0) (201 # 2) (Samples.clock 8 1 40).
Proof.
  split; [reflexivity|]. split; [reflexivity|].
  vm_compute. discriminate.
Qed.

(** *** C4 *)


(** *** C5 *)

(** C5: on the same input, when the runs with the thresholds
    [mintime1 < mintime2] both return a table, the table of [mintime2]
    has no more rows than that of [mintime1]. *)
Theorem C5_threshold_monotone (data : list (GPS Point))
    (stop : list (Stop Point)) (stopbuffer mintime1 mintime2 : Q)
    (method : Method) (rows1 rows2 : list (ArriveInfo Z)) :
  (mintime1 < mintime2)%Q ->
  busgps_arriveinfo lineshp_project distance intersection data stop
    stopbuffer mintime1 method = Py.Ok rows1 ->
  busgps_arriveinfo lineshp_project distance intersection data stop
    stopbuffer mintime2 method = Py.Ok rows2 ->
  (length rows2 <= length rows1)%nat.
Proof.
  intros Hm. unfold busgps_arriveinfo.
  destruct (position_matching _ _ _ _) as [bp|e]; simpl; [|discriminate].
  destruct (arrive_frames _ _ _ _ _ mintime1) as [ls1|] eqn:E1; simpl;
    [|discriminate].
  destruct (arrive_frames _ _ _ _ _ mintime2) as [ls2|] eqn:E2; simpl;
    [|discriminate].
  pose proof (arrive_frames_mono lineshp_project intersection mintime1 mintime2
                bp stop stopbuffer ls1 ls2 ltac:(lra) E1 E2) as Hmono.
  apply no_more_concat in Hmono.
  destruct ls1, ls2; simpl; try discriminate.
  intros [= <-] [= <-]. now rewrite !length_map.
Qed.

(** With ordered pieces the two runs also end the same way: both raise
    the same exception or both return a table. *)
Lemma arriveinfo_threshold_outcome (data : list (GPS Point))
    (stop : list (Stop Point)) (stopbuffer mintime1 mintime2 : Q)
    (method : Method) :
  (forall bp car s,
      position_matching lineshp_project distance method data = Py.Ok bp ->
      In car (map (fun r => gps_VehicleId (gps r)) bp) -> In s stop ->
      pieces_ordered
        (run_intersection intersection bp stopbuffer car
           (lineshp_project (stop_geometry s)))) ->
  (mintime1 < mintime2)%Q ->
  result_rel (fun rows1 rows2 => (length rows2 <= length rows1)%nat)
    (busgps_arriveinfo lineshp_project distance intersection data stop
       stopbuffer mintime1 method)
    (busgps_arriveinfo lineshp_project distance intersection data stop
       stopbuffer mintime2 method).
Proof.
  intros Hord Hm. unfold busgps_arriveinfo.
  destruct (position_matching _ _ _ _) as [bp|e] eqn:Ebp; simpl; [|reflexivity].
  pose proof (arrive_frames_ordered_rel lineshp_project intersection
                mintime1 mintime2 bp stop stopbuffer
                (fun car s => Hord bp car s eq_refl) ltac:(lra)) as Hrel.
  destruct (arrive_frames _ _ _ _ _ mintime1) as [ls1|e1],
           (arrive_frames _ _ _ _ _ mintime2) as [ls2|e2];
    simpl in *; try contradiction; [|exact Hrel].
  pose proof (no_more_concat _ _ Hrel) as Hlen.
  destruct Hrel; simpl; [reflexivity|]. now rewrite !length_map.
Qed.

(** *** C7 *)

(** C7: a vehicle with fewer than 2 rows, and a vehicle and stop whose
    intersection is empty, add no frame and raise nothing: the loops go
    on as if that vehicle, or that stop, were not in their lists. *)
Theorem C7_sparse_skipped (data : list (BusProject Point))
    (stop : list (Stop Point * Q)) (stopbuffer mintime : Q) (starttime : Z)
    (time_st_max : Q) (car1 : Z) (cars1 cars2 : list Z)
    (car2 : Z) (tmp : list (BusProject Point)) (stopname : string)
    (position : Q) (names1 names2 : list string)
    (ls : list (list (ArriveInfo Q))) :
  (length (filter (fun r => (gps_VehicleId (gps r) =? car1)%Z) data) < 2)%nat ->
  stop_position stop stopname = Py.Ok position ->
  intersection (bus_linestring starttime tmp)
    [(0%Q, position); (time_st_max, position)] stopbuffer = [] ->
  Py.for_ (cars1 ++ car1 :: cars2)
    (car_body intersection data stop stopbuffer mintime starttime time_st_max) ls
  = Py.for_ (cars1 ++ cars2)
      (car_body intersection data stop stopbuffer mintime starttime time_st_max) ls
  /\ Py.for_ (names1 ++ stopname :: names2)
       (stop_body intersection stop stopbuffer mintime starttime time_st_max
          car2 tmp) ls
     = Py.for_ (names1 ++ names2)
         (stop_body intersection stop stopbuffer mintime starttime time_st_max
            car2 tmp) ls.
Proof.
  intros Hfew Hpos Hempty. split; apply for_skip; intros ls'.
  - now apply car_body_skipped.
  - eapply stop_body_skipped; eassumption.
Qed.

(** *** C9 *)

(** C9: when no vehicle and stop of the run have a non-empty
    intersection, [busgps_arriveinfo] returns no table: it raises the
    ValueError of [pd.concat] on an empty list. *)
Theorem C9_no_visit_raises (data : list (GPS Point)) (stop : list (Stop Point))
    (stopbuffer mintime : Q) (method : Method) :
  (forall bp car s,
      position_matching lineshp_project distance method data = Py.Ok bp ->
      In car (map (fun r => gps_VehicleId (gps r)) bp) -> In s stop ->
      run_intersection intersection bp stopbuffer car
        (lineshp_project (stop_geometry s)) = []) ->
  busgps_arriveinfo lineshp_project distance intersection data stop
    stopbuffer mintime method
  = Py.Raise Py.ValueError_NoObjectsToConcatenate.
Proof.
  intros Hnone. unfold busgps_arriveinfo.
  destruct (position_matching _ _ _ _) as [bp|e] eqn:Ebp; simpl.
  - rewrite arrive_frames_none; [reflexivity|].
    intros car s. now apply Hnone.
  - f_equal. eapply position_matching_raise, Ebp.
Qed.

(** *** C10 *)


End ArriveClaims.

(* ================================================================= *)
(** ** The properties on the sample run *)

Section ArriveWitnesses.

Import Arriveinfo DwellSpec ArriveSpec.

Lemma sample_pieces_ordered enter traj seg buf :
  (enter <= 130)%Q -> pieces_ordered (Samples.intersection_at enter traj seg buf).
Proof.
  intros He. unfold Samples.intersection_at.
  destruct seg as [|[t position] seg]; [exact I|].
  destruct (Qeq_bool position 1000); [|exact I].
  simpl. unfold coords_0_0, coords_last_0. simpl.
  repeat split; try constructor; try constructor; try lra.
Qed.

(** On the steep route every step along the path is cut down to the
    distance between the two points, and the point seen twice keeps its
    position. *)
Example dislimit_clamped :
  exists col,
    dislimit_project Samples.steep_project Samples.distance
      (dislimit_tmp Samples.steep_rows 1) = Py.Ok col
    /\ Forall2 Qeq col [0; 1; 1; 3]%Q.
Proof. eexists. split; [reflexivity|]. repeat constructor. Qed.

Lemma C6_dislimit_positions_witness :
  exists col,
    dislimit_project Samples.lineshp_project Samples.distance
      (dislimit_tmp Samples.gps_rows 1) = Py.Ok col
    /\ length col = length (dislimit_tmp Samples.gps_rows 1)
    /\ forall i fix0 fix1 prev,
        dislimit_tmp Samples.gps_rows 1 !! i = Some fix0 ->
        dislimit_tmp Samples.gps_rows 1 !! S i = Some fix1 ->
        col !! i = Some prev ->
        let d := Samples.distance (geometry fix1) (geometry fix0) in
        let p2 := Samples.lineshp_project (geometry fix1) in
        let delta := (p2 - prev)%Q in
        exists next,
          col !! S i = Some next
          /\ (d == 0 -> next = prev)%Q
          /\ (d < Qabs delta -> next == prev + Py.np_sign delta * d)%Q
          /\ (~ d == 0 -> ~ d < Qabs delta -> next = p2)%Q.
Proof.
  exact (C6_dislimit_positions Samples.lineshp_project Samples.distance
           Samples.gps_rows 1).
Defined.


Lemma C5_threshold_monotone_witness :
  (length Samples.dwell_rows_10 <= length Samples.dwell_rows_3)%nat.
Proof.
  apply (C5_threshold_monotone Samples.lineshp_project Samples.distance
           Samples.intersection Samples.gps_rows Samples.stops 200 3 10
           method_project).
  - reflexivity.
  - reflexivity.
  - reflexivity.
Defined.

Lemma C7_sparse_skipped_witness :
  Py.for_ ([1] ++ 2 :: [])
    (car_body Samples.intersection Samples.bus_project Samples.stop_project
       200 10 (Samples.clock 8 0 0) 240) []
  = Py.for_ ([1] ++ [])
      (car_body Samples.intersection Samples.bus_project Samples.stop_project
         200 10 (Samples.clock 8 0 0) 240) []
  /\ Py.for_ (["S"%string] ++ "T"%string :: [])
       (stop_body Samples.intersection Samples.stop_project 200 10
          (Samples.clock 8 0 0) 240 1
          (filter (fun r => gps_VehicleId (gps r) =? 1) Samples.bus_project))
       []
     = Py.for_ (["S"%string] ++ [])
         (stop_body Samples.intersection Samples.stop_project 200 10
            (Samples.clock 8 0 0) 240 1
            (filter (fun r => gps_VehicleId (gps r) =? 1) Samples.bus_project))
         [].
Proof.
  apply (C7_sparse_skipped Samples.intersection Samples.bus_project
           Samples.stop_project 200 10 (Samples.clock 8 0 0) 240
           2 [1] [] 1 _ "T" 5000 ["S"%string] [] []).
  - vm_compute. lia.
  - reflexivity.
  - reflexivity.
Defined.

Lemma C9_no_visit_raises_witness :
  busgps_arriveinfo Samples.lineshp_project Samples.distance
    Samples.intersection Samples.gps_rows
    [mkStop "T"%string (5000%Q, 0%Q)] 200 10 method_project
  = Py.Raise Py.ValueError_NoObjectsToConcatenate.
Proof.
  apply C9_no_visit_raises.
  intros bp car s _ _ [<-|[]]. reflexivity.
Defined.


End ArriveWitnesses.

(* ================================================================= *)
(** * Further properties *)

(** ** busgps_onewaytime *)

Section OnewayMore.

Import Onewaytime OnewaySpec.







(** *** Durations are never negative *)




(** *** Where the rows come from *)




(** *** Rows at other stops do not count *)

Lemma filter_filter_imp {A} (f g : A -> bool) l :
  (forall x, f x = true -> g x = true) -> filter f (filter g l) = filter f l.
Proof.
  intros H. induction l as [|x l IH]; simpl; [reflexivity|].
  destruct (g x) eqn:Eg; simpl; rewrite IH; [reflexivity|].
  destruct (f x) eqn:Ef; [|reflexivity]. apply H in Ef. congruence.
Qed.

(** The rows of [arrive_info] at stops other than [start] and [end_] can
    be left out without changing the result. *)
Theorem onewaytime_other_stops info start end_ :
  busgps_onewaytime
    (filter (fun r => String.eqb (stopname r) start
                      || String.eqb (stopname r) end_) info)
    start end_
  = busgps_onewaytime info start end_.
Proof.
  unfold busgps_onewaytime, c1, c2, arrivals_at, departures_from.
  rewrite !filter_filter_imp
    by (intros x Hx; rewrite Hx; auto using orb_true_r).
  reflexivity.
Qed.

(** *** Every vehicle on its own *)

Section FilterSort.

Context {A : Type} (leb : A -> A -> bool) (p : A -> bool).
Hypothesis leb_trans :
  forall x y z, leb x y = true -> leb y z = true -> leb x z = true.




End FilterSort.



Lemma filter_none {A} (p : A -> bool) l :
  Forall (fun x => p x = false) l -> filter p l = [].
Proof. induction 1 as [|x l Hx _ IH]; simpl; [reflexivity|]. now rewrite Hx. Qed.

Lemma filter_cons_app {A} (f : A -> bool) x l :
  filter f (x :: l) = (if f x then [x] else []) ++ filter f l.
Proof. simpl. now destruct (f x). Qed.

Lemma trips_vehicle start end_ c t :
  In t (trips start end_ c) -> exists r, In r c /\ ow_VehicleId t = ev_VehicleId r.
Proof.
  intros Ht. apply trips_In in Ht as (r & r1 & Hr & _ & ->). now exists r.
Qed.



(** *** No more trips than departures, nor than arrivals *)

Lemma trips_length_start start end_ c :
  (length (trips start end_ c)
   <= length (filter (fun r => String.eqb (ev_stopname r) start) c))%nat.
Proof.
  induction c as [|r [|r1 rest] IH]; [simpl; lia|simpl; lia|].
  rewrite trips_cons, length_app.
  rewrite (filter_cons_app _ r (r1 :: rest)), length_app.
  destruct (mask start end_ r (Some r1)) eqn:E;
    destruct (String.eqb (ev_stopname r) start) eqn:Es;
    cbn [length app]; try lia.
  unfold mask in E. rewrite Es, andb_false_r in E. discriminate.
Qed.

Lemma trips_length_end start end_ c :
  (length (trips start end_ c)
   <= length (filter (fun r => String.eqb (ev_stopname r) end_) (tl c)))%nat.
Proof.
  induction c as [|r [|r1 rest] IH]; [simpl; lia|simpl; lia|].
  rewrite trips_cons, length_app. cbn [tl] in *.
  rewrite (filter_cons_app _ r1 rest), length_app.
  assert (IH' : (length (trips start end_ (r1 :: rest))
                 <= length (filter (fun r => String.eqb (ev_stopname r) end_) rest))%nat)
    by exact IH.
  destruct (mask start end_ r (Some r1)) eqn:E;
    destruct (String.eqb (ev_stopname r1) end_) eqn:Es;
    cbn [length app]; try lia.
  unfold mask in E. rewrite Es, andb_false_r in E. discriminate.
Qed.

Lemma filter_insert_length {A} (leb : A -> A -> bool) (p : A -> bool) x l :
  length (filter p (Pandas.insert leb x l))
  = ((if p x then 1 else 0) + length (filter p l))%nat.
Proof.
  induction l as [|y l IH]; simpl; [now destruct (p x)|].
  destruct (leb x y); simpl; [now destruct (p x)|].
  destruct (p y); simpl; rewrite IH; lia.
Qed.

Lemma filter_sort_length {A} (leb : A -> A -> bool) (p : A -> bool) l :
  length (filter p (Pandas.sort_values leb l)) = length (filter p l).
Proof.
  induction l as [|x l IH]; simpl; [reflexivity|].
  rewrite filter_insert_length, IH. now destruct (p x).
Qed.

(** For different stop names, the forward direction has no more rows
    than [arrive_info] has rows at [start], nor than it has rows at
    [end_]. *)
Theorem onewaytime_count_bound info start end_ :
  start <> end_ ->
  (length (c1 info start end_)
   <= Nat.min
        (length (filter (fun r => String.eqb (stopname r) start) info))
        (length (filter (fun r => String.eqb (stopname r) end_) info)))%nat.
Proof.
  intros Hne. apply Nat.min_glb.
  - etransitivity; [apply trips_length_start|].
    unfold sorted_events. rewrite filter_sort_length, filter_app, length_app.
    rewrite (filter_none _ (arrivals_at info end_)).
    + simpl. etransitivity; [apply filter_length_le|].
      unfold departures_from. now rewrite length_map.
    + eapply Forall_impl; [|apply arrivals_at_stop]. simpl.
      intros r Hr. apply String.eqb_eq in Hr. apply String.eqb_neq. congruence.
  - etransitivity; [apply trips_length_end|].
    etransitivity.
    { instantiate (1 := length (filter (fun r => String.eqb (ev_stopname r) end_)
                                  (sorted_events (arrivals_at info end_)
                                     (departures_from info start)))).
      destruct (sorted_events _ _) as [|x l]; [simpl; lia|].
      cbn [tl filter]. destruct (String.eqb _ _); simpl; lia. }
    unfold sorted_events. rewrite filter_sort_length, filter_app, length_app.
    rewrite (filter_none _ (departures_from info start)).
    + rewrite Nat.add_0_r. etransitivity; [apply filter_length_le|].
      unfold arrivals_at. now rewrite length_map.
    + eapply Forall_impl; [|apply departures_from_stop]. simpl.
      intros r Hr. apply String.eqb_eq in Hr. apply String.eqb_neq. congruence.
Qed.

Lemma onewaytime_count_bound_witness :
  (length (c1 Samples.close_stops "S" "E")
   <= Nat.min
        (length (filter (fun r => String.eqb (stopname r) "S") Samples.close_stops))
        (length (filter (fun r => String.eqb (stopname r) "E") Samples.close_stops)))%nat.
Proof. apply onewaytime_count_bound. discriminate. Defined.

End OnewayMore.

(** ** The dwell merge *)

Section DwellMore.

Import Arriveinfo DwellSpec MoreSpec.


(** *** Visits that are kept apart are at least the threshold apart *)




(** *** A threshold of zero merges nothing *)

Lemma merge_from_none mintime since r rest :
  (mintime <= 0)%Q -> pieces_ordered (r :: rest) ->
  merge_from mintime since r rest
  = (since, coords_last_0 r)
      :: map (fun r' => (coords_0_0 r', coords_last_0 r')) rest.
Proof.
  intros Hm. revert since r. induction rest as [|r' rest IH]; intros since r Hord;
    [reflexivity|].
  destruct Hord as (_ & Hlater & Hord). inversion Hlater; subst.
  cbn [merge_from map].
  assert (E : gap_after mintime r (r' :: rest) = false).
  { unfold gap_after. apply not_true_iff_false. rewrite Qltb_lt. lra. }
  rewrite E. f_equal. now apply IH.
Qed.

(** On pieces ordered in time and with a threshold of zero or less,
    every piece gives its own row. *)
Theorem arrive_new_no_merge mintime stopname car arrive :
  pieces_ordered arrive -> (mintime <= 0)%Q ->
  arrive_new mintime stopname car arrive
  = Py.Ok (map (fun r => mkArriveInfo (coords_0_0 r) (coords_last_0 r)
                           stopname car) arrive).
Proof.
  intros Hord Hm. rewrite arrive_new_ordered by assumption. f_equal.
  destruct arrive as [|r rest]; [reflexivity|].
  unfold merge_pieces. rewrite merge_from_none by assumption.
  cbn [map]. now rewrite map_map.
Qed.

Lemma arrive_new_no_merge_witness :
  arrive_new 0 "S" 1 [Samples.visit 1000 100 130; Samples.visit 1000 135 180]
  = Py.Ok (map (fun r => mkArriveInfo (coords_0_0 r) (coords_last_0 r)
                           "S"%string 1)
             [Samples.visit 1000 100 130; Samples.visit 1000 135 180]).
Proof.
  apply arrive_new_no_merge.
  - apply (sample_pieces_ordered 100 [] [(0, 1000)] 0)%Q. lra.
  - lra.
Defined.

(** *** From the first arrival to the last departure *)






(** *** How many rows *)




(** *** The times of a row are crossing times of the pieces *)

Lemma mask_rows_In {A} (l : list A) m x : In x (Pandas.mask_rows l m) -> In x l.
Proof.
  unfold Pandas.mask_rows. rewrite in_map_iff.
  intros ([y b] & <- & H). apply filter_In in H as [H _].
  now apply in_combine_l in H.
Qed.

Lemma crossings_In arrive x :
  In x (crossings arrive) ->
  (flag x = 1 /\ In (time x) (map coords_0_0 arrive))
  \/ (flag x = 0 /\ In (time x) (map coords_last_0 arrive)).
Proof.
  unfold crossings. rewrite sort_values_In, in_app_iff, !in_map_iff.
  intros [(r & <- & Hr)|(r & <- & Hr)]; [left|right]; simpl;
    (split; [reflexivity|]); exists r; split; auto.
Qed.

(** Whatever the pieces, when the merge returns rows, each of them has
    the arrival time of one piece and the departure time of one piece,
    and the stop name and the vehicle of the call. *)
Theorem arrive_new_times mintime name car arrive rows row :
  arrive_new mintime name car arrive = Py.Ok rows ->
  In row rows ->
  In (arrivetime row) (map coords_0_0 arrive)
  /\ In (leavetime row) (map coords_last_0 arrive)
  /\ stopname row = name /\ VehicleId row = car.
Proof.
  unfold arrive_new, pair_up, Pandas.set_column.
  destruct (Nat.eqb _ _); simpl; [|discriminate].
  intros [= <-] Hrow. apply in_map_iff in Hrow as ([a d] & <- & Had). simpl.
  split; [|split; [|split; reflexivity]].
  - apply in_combine_l in Had. apply in_map_iff in Had as (x & <- & Hx).
    apply filter_In in Hx as [Hx Hf]. apply mask_rows_In, crossings_In in Hx.
    apply Z.eqb_eq in Hf. destruct Hx as [[_ H]|[H _]]; [exact H|congruence].
  - apply in_combine_r in Had. apply in_map_iff in Had as (x & <- & Hx).
    apply filter_In in Hx as [Hx Hf]. apply mask_rows_In, crossings_In in Hx.
    apply Z.eqb_eq in Hf. destruct Hx as [[H _]|[_ H]]; [congruence|exact H].
Qed.

Lemma arrive_new_times_witness :
  In 100%Q (map coords_0_0
              [Samples.visit 1000 100 130; Samples.visit 1000 135 180])
  /\ In 180%Q (map coords_last_0
                 [Samples.visit 1000 100 130; Samples.visit 1000 135 180])
  /\ "S"%string = "S"%string /\ 1 = 1.
Proof.
  apply (arrive_new_times 10 "S" 1
           [Samples.visit 1000 100 130; Samples.visit 1000 135 180]
           [mkArriveInfo 100%Q 180%Q "S"%string 1]
           (mkArriveInfo 100%Q 180%Q "S"%string 1)).
  - reflexivity.
  - left. reflexivity.
Defined.

(** *** Pieces that overlap in time *)




End DwellMore.

(** ** The distance-limit matching *)

Section DislimitMore.

Import Arriveinfo DislimitSpec.

Context {Point : Type}.
Variable lineshp_project : Point -> Q.
Variable distance : Point -> Point -> Q.

(** The loop once more, with the position of the first row. *)
Lemma dislimit_loop_first (geom : list Point) g0 :
  geom !! 0%nat = Some g0 -> (2 <= length geom)%nat ->
  exists col,
    Py.for_ (seq 0 (length geom - 1))
      (dislimit_body lineshp_project distance geom)
      (repeat 0%Q (length geom)) = Py.Ok col
    /\ length col = length geom
    /\ col !! 0%nat = Some (lineshp_project g0)
    /\ (forall i, (S i < length geom)%nat ->
                  matched_at lineshp_project distance geom col i).
Proof.
  intros H0 Hlen2.
  destruct geom as [|g0' [|g1 rest]] eqn:Eg; simpl in Hlen2; try lia.
  injection H0 as ->. rewrite <- Eg.
  assert (Hlen : length geom = S (S (length rest))) by now rewrite Eg.
  rewrite Hlen. replace (S (S (length rest)) - 1)%nat with (S (length rest)) by lia.
  cbn [seq Py.for_].
  set (col1 := <[1%nat := dislimit_proj1 lineshp_project distance g0 g1
                            (lineshp_project g0)]>
                 (<[0%nat := lineshp_project g0]>
                    (repeat 0%Q (S (S (length rest)))))).
  assert (Hbody : dislimit_body lineshp_project distance geom 0%nat
                    (repeat 0%Q (S (S (length rest)))) = Py.Ok col1).
  { unfold dislimit_body. rewrite Eg. reflexivity. }
  rewrite Hbody. cbn [Py.bind].
  assert (Hlen1 : length col1 = length geom).
  { unfold col1. now rewrite !length_insert, repeat_length. }
  destruct (dislimit_loop_later lineshp_project distance geom (length rest) 1 col1
              ltac:(lia) ltac:(lia) Hlen1)
    as (col' & Hfor & Hlen' & Hkeep & Hstep).
  exists col'. split; [exact Hfor|]. split; [lia|]. split.
  - rewrite Hkeep by lia. reflexivity.
  - intros i Hi. destruct i as [|i]; [|apply Hstep; lia].
    exists g0, g1, (lineshp_project g0). rewrite Eg.
    repeat split; rewrite Hkeep by lia; reflexivity.
Qed.

(** *** The first row, and a vehicle seen once *)

(** Under the distance-limit method the first row of a vehicle with two
    rows or more is given its nearest projection. *)
Theorem dislimit_first_row (tmp : list (GPS Point)) (fix0 : GPS Point) :
  tmp !! 0%nat = Some fix0 -> (2 <= length tmp)%nat ->
  exists col,
    dislimit_project lineshp_project distance tmp = Py.Ok col
    /\ col !! 0%nat = Some (lineshp_project (geometry fix0)).
Proof.
  intros H0 Hlen. unfold dislimit_project.
  destruct (dislimit_loop_first (map geometry tmp) (geometry fix0))
    as (col & Hcol & _ & Hfirst & _).
  - now rewrite lookup_map, H0.
  - now rewrite length_map.
  - rewrite length_map in Hcol. eauto.
Qed.

(** A vehicle with a single row keeps the initial position 0, whatever
    its point: the loop of lines 122-138 does not run. *)
Theorem dislimit_single_row (tmp : list (GPS Point)) :
  length tmp = 1%nat ->
  dislimit_project lineshp_project distance tmp = Py.Ok [0%Q].
Proof.
  intros H. unfold dislimit_project. rewrite H. reflexivity.
Qed.

(** *** Steps along the path are bounded by the distance *)

Lemma dislimit_proj1_bound (g0 g1 : Point) prev :
  (0 <= distance g1 g0)%Q ->
  (Qabs (dislimit_proj1 lineshp_project distance g0 g1 prev - prev)
   <= distance g1 g0)%Q.
Proof.
  intros Hd. unfold dislimit_proj1. apply Qabs_Qle_condition.
  destruct (Qeq_bool (distance g1 g0) 0); [split; lra|].
  destruct (Py.Qltb _ _) eqn:E.
  - unfold Py.np_sign. destruct (_ ?= _)%Q; split; lra.
  - apply not_true_iff_false in E. rewrite Qltb_lt in E.
    apply Qnot_lt_le, Qabs_Qle_condition in E. exact E.
Qed.

(** When distances are not negative, the positions given to two
    consecutive rows of a vehicle differ by no more than the distance
    between their points. *)
Theorem dislimit_step_bounded (tmp : list (GPS Point)) col i fix0 fix1 prev next :
  (forall p q, 0 <= distance p q)%Q ->
  dislimit_project lineshp_project distance tmp = Py.Ok col ->
  tmp !! i = Some fix0 -> tmp !! S i = Some fix1 ->
  col !! i = Some prev -> col !! S i = Some next ->
  (Qabs (next - prev) <= distance (geometry fix1) (geometry fix0))%Q.
Proof.
  intros Hd Hcol H0 H1 Hprev Hnext. unfold dislimit_project in Hcol.
  destruct (dislimit_loop lineshp_project distance (map geometry tmp))
    as (col' & Hcol' & _ & Hstep).
  rewrite length_map in Hcol', Hstep.
  rewrite Hcol in Hcol'. injection Hcol' as <-.
  destruct (Hstep i) as (g0 & g1 & prev' & Hg0 & Hg1 & Hp & Hn).
  { now apply lookup_lt_Some in H1. }
  rewrite lookup_map, H0 in Hg0. rewrite lookup_map, H1 in Hg1.
  injection Hg0 as <-. injection Hg1 as <-.
  rewrite Hprev in Hp. injection Hp as <-.
  rewrite Hnext in Hn. injection Hn as ->.
  apply dislimit_proj1_bound, Hd.
Qed.

(** *** When no step is cut, the positions are the nearest projections *)

(** When for every two consecutive rows of a vehicle the projections of
    their points differ by no more than their distance (and coincide when
    the distance is 0), the distance-limit method gives every row its
    nearest projection, as the method 'project' does. *)
Theorem dislimit_within_distance (tmp : list (GPS Point)) :
  (2 <= length tmp)%nat ->
  (forall i fix0 fix1,
      tmp !! i = Some fix0 -> tmp !! S i = Some fix1 ->
      (distance (geometry fix1) (geometry fix0) == 0 ->
       lineshp_project (geometry fix1) = lineshp_project (geometry fix0))%Q
      /\ ~ (distance (geometry fix1) (geometry fix0)
            < Qabs (lineshp_project (geometry fix1)
                    - lineshp_project (geometry fix0)))%Q) ->
  dislimit_project lineshp_project distance tmp
  = Py.Ok (map (fun r => lineshp_project (geometry r)) tmp).
Proof.
  intros Hlen Hsteps.
  destruct (lookup_lt_is_Some_2 tmp 0 ltac:(lia)) as [fix0 H0].
  unfold dislimit_project.
  destruct (dislimit_loop_first (map geometry tmp) (geometry fix0))
    as (col & Hcol & Hlencol & Hfirst & Hstep).
  { now rewrite lookup_map, H0. }
  { now rewrite length_map. }
  rewrite length_map in Hcol, Hlencol, Hstep. rewrite Hcol. f_equal.
  apply list_eq. intros i. rewrite lookup_map.
  induction i as [|i IH].
  - now rewrite Hfirst, H0.
  - destruct (tmp !! S i) as [fix1|] eqn:E1.
    + assert (Hi : (S i < length tmp)%nat) by now apply lookup_lt_Some in E1.
      destruct (Hstep i Hi) as (g0 & g1 & prev & Hg0 & Hg1 & Hp & Hn).
      destruct (lookup_lt_is_Some_2 tmp i ltac:(lia)) as [fixi Ei].
      rewrite Ei in IH. simpl in IH.
      rewrite lookup_map, Ei in Hg0. rewrite lookup_map, E1 in Hg1.
      injection Hg0 as <-. injection Hg1 as <-.
      rewrite IH in Hp. injection Hp as <-.
      rewrite Hn. simpl. f_equal.
      destruct (Hsteps i fixi fix1 Ei E1) as [Hzero Hcut].
      unfold dislimit_proj1.
      destruct (Qeq_bool _ 0) eqn:Ez.
      * apply Qeq_bool_iff in Ez. symmetry. now apply Hzero.
      * destruct (Py.Qltb _ _) eqn:El; [|reflexivity].
        apply Qltb_lt in El. contradiction.
    + simpl. apply lookup_ge_None. apply lookup_ge_None in E1. lia.
Qed.

End DislimitMore.

Section DislimitMoreWitnesses.

Import Arriveinfo.

Lemma sample_distance_nonneg p q : (0 <= Samples.distance p q)%Q.
Proof.
  unfold Samples.distance.
  pose proof (Qabs_nonneg (fst p - fst q)).
  pose proof (Qabs_nonneg (snd p - snd q)). lra.
Qed.

Lemma dislimit_first_row_witness :
  exists col,
    dislimit_project Samples.steep_project Samples.distance
      (dislimit_tmp Samples.steep_rows 1) = Py.Ok col
    /\ col !! 0%nat = Some (Samples.steep_project (0, 0)%Q).
Proof.
  apply (dislimit_first_row Samples.steep_project Samples.distance
           (dislimit_tmp Samples.steep_rows 1)
           (mkGPS 1 (Samples.clock 8 0 0) (0, 0)%Q)).
  - reflexivity.
  - vm_compute. lia.
Defined.

Lemma dislimit_single_row_witness :
  dislimit_project Samples.lineshp_project Samples.distance
    (dislimit_tmp Samples.gps_rows 2) = Py.Ok [0%Q].
Proof. apply dislimit_single_row. reflexivity. Defined.

Lemma dislimit_step_bounded_witness :
  (Qabs ((1 * 1 + 0) - 0)
   <= Samples.distance (1, 0) (0, 0))%Q.
Proof.
  apply (dislimit_step_bounded Samples.steep_project Samples.distance
           (dislimit_tmp Samples.steep_rows 1)
           [0; 1 * 1 + 0; 1 * 1 + 0; 1 * 2 + (1 * 1 + 0)]%Q 0
           (mkGPS 1 (Samples.clock 8 0 0) (0, 0)%Q)
           (mkGPS 1 (Samples.clock 8 0 10) (1, 0)%Q)).
  - apply sample_distance_nonneg.
  - reflexivity.
  - reflexivity.
  - reflexivity.
  - reflexivity.
  - reflexivity.
Defined.

Lemma dislimit_within_distance_witness :
  dislimit_project Samples.lineshp_project Samples.distance
    (dislimit_tmp Samples.gps_rows 1)
  = Py.Ok (map (fun r => Samples.lineshp_project (geometry r))
             (dislimit_tmp Samples.gps_rows 1)).
Proof.
  apply dislimit_within_distance.
  - vm_compute. lia.
  - intros [|[|[|i]]] fix0 fix1 H0 H1; try discriminate;
      injection H0 as <-; injection H1 as <-; split;
      vm_compute; intros H; discriminate.
Defined.

End DislimitMoreWitnesses.

(** ** The position matching *)

Section GroupFacts.

Context {A : Type} (key : A -> Z).

Lemma drop_duplicates_In_iff x (l : list Z) :
  In x (Pandas.drop_duplicates Z.eqb l) <-> In x l.
Proof.
  split; [apply drop_duplicates_In|].
  induction l as [|y l IH]; simpl; [tauto|].
  intros [->|H]; [now left|].
  destruct (Z.eq_dec y x) as [->|Hne]; [now left|]. right.
  apply filter_In. split; [now apply IH|].
  apply negb_true_iff, Z.eqb_neq. exact Hne.
Qed.

Lemma insert_Permutation (leb : A -> A -> bool) x l :
  Permutation (Pandas.insert leb x l) (x :: l).
Proof.
  induction l as [|y l IH]; simpl; [reflexivity|].
  destruct (leb x y); [reflexivity|].
  rewrite IH. apply perm_swap.
Qed.

Lemma sort_values_Permutation (leb : A -> A -> bool) l :
  Permutation (Pandas.sort_values leb l) l.
Proof.
  induction l as [|x l IH]; simpl; [reflexivity|].
  rewrite insert_Permutation. now constructor.
Qed.

Lemma filter_Permutation_std (p : A -> bool) l l' :
  Permutation l l' -> Permutation (filter p l) (filter p l').
Proof.
  induction 1 as [|x l l' _ IH|x y l|l l' l'' _ IH1 _ IH2]; simpl.
  - reflexivity.
  - destruct (p x); [now constructor|exact IH].
  - destruct (p x), (p y); try reflexivity. apply perm_swap.
  - now rewrite IH1.
Qed.

(** The rows of [l] taken key by key, for keys without repetition that
    cover [l], are the rows of [l]. *)
Lemma groups_Permutation (D : list Z) l :
  NoDup D -> (forall r, In r l -> In (key r) D) ->
  Permutation (List.concat (map (fun k => filter (fun r => key r =? k) l) D)) l.
Proof.
  intros HD. induction l as [|x l IH]; intros Hcover.
  - clear Hcover. simpl. induction D as [|k D IHD]; simpl; [reflexivity|].
    apply IHD. now inversion HD.
  - destruct (in_split (key x) D) as (D1 & D2 & ->).
    { apply Hcover. now left. }
    assert (Hx1 : ~ In (key x) D1 /\ ~ In (key x) D2).
    { apply NoDup_remove_2 in HD. rewrite in_app_iff in HD. tauto. }
    assert (Hother : forall D',
               ~ In (key x) D' ->
               map (fun k => filter (fun r => key r =? k) (x :: l)) D'
               = map (fun k => filter (fun r => key r =? k) l) D').
    { intros D' Hn. apply map_ext_in. intros k Hk. simpl.
      destruct (Z.eqb_spec (key x) k) as [E|E]; [|reflexivity].
      subst k. contradiction. }
    rewrite map_app, concat_app. cbn [map List.concat].
    rewrite !Hother by tauto. cbn [filter]. rewrite Z.eqb_refl.
    rewrite <- app_comm_cons, <- Permutation_middle. constructor.
    specialize (IH ltac:(intros r Hr; apply Hcover; now right)).
    rewrite map_app, concat_app in IH. exact IH.
Qed.

Lemma concat_Permutation (ls ls' : list (list A)) :
  Forall2 (@Permutation A) ls ls' ->
  Permutation (List.concat ls) (List.concat ls').
Proof.
  induction 1 as [|l l' ls ls' Hl _ IH]; simpl; [reflexivity|].
  now apply Permutation_app.
Qed.

End GroupFacts.

Section MatchingMore.

Import Arriveinfo DislimitSpec MoreSpec.

Context {Point : Type}.
Variable lineshp_project : Point -> Q.
Variable distance : Point -> Point -> Q.

Lemma dislimit_column_spec (tmp : list (GPS Point)) :
  dislimit_project lineshp_project distance tmp
  = Py.Ok (dislimit_column lineshp_project distance tmp)
  /\ length (dislimit_column lineshp_project distance tmp) = length tmp.
Proof.
  unfold dislimit_column, dislimit_project.
  destruct (dislimit_loop lineshp_project distance (map geometry tmp))
    as (col & Hcol & Hlen & _).
  rewrite length_map in Hcol, Hlen. now rewrite Hcol.
Qed.

Lemma map_gps_zip (tmp : list (GPS Point)) col :
  length col = length tmp -> map gps (zip_with mkBusProject tmp col) = tmp.
Proof.
  revert col. induction tmp as [|r tmp IH]; intros [|c col] H; try discriminate;
    [reflexivity|].
  simpl. f_equal. apply IH. simpl in H. lia.
Qed.

Lemma dislimit_frame_rows data vid :
  map gps (dislimit_frame lineshp_project distance data vid)
  = dislimit_tmp data vid.
Proof. apply map_gps_zip, dislimit_column_spec. Qed.

Lemma dislimit_frames_loop data vids tmps :
  Py.for_ vids
    (fun vid tmps =>
       col ← dislimit_project lineshp_project distance (dislimit_tmp data vid);
       mret (tmps ++ [zip_with mkBusProject (dislimit_tmp data vid) col]))
    tmps
  = Py.Ok (tmps ++ map (dislimit_frame lineshp_project distance data) vids).
Proof.
  revert tmps. induction vids as [|vid vids IH]; intros tmps; simpl.
  - now rewrite app_nil_r.
  - rewrite (proj1 (dislimit_column_spec (dislimit_tmp data vid))). simpl.
    rewrite IH, <- app_assoc. reflexivity.
Qed.

(** Lines 110-140 as one expression. *)
Lemma position_matching_dislimit data :
  position_matching lineshp_project distance method_dislimit data
  = Pandas.concat
      (map (dislimit_frame lineshp_project distance data)
         (Pandas.drop_duplicates Z.eqb (map gps_VehicleId data))).
Proof.
  unfold position_matching. rewrite dislimit_frames_loop. reflexivity.
Qed.

(** *** No row is lost *)

Lemma position_matching_Permutation (method : Method) (data : list (GPS Point))
    bp :
  position_matching lineshp_project distance method data = Py.Ok bp ->
  Permutation (map gps bp) data.
Proof.
  destruct method.
  - simpl. intros [= <-]. rewrite map_map. simpl. now rewrite map_id.
  - rewrite position_matching_dislimit.
    destruct (map _ (Pandas.drop_duplicates _ _)) as [|f fs] eqn:E;
      cbn [Pandas.concat]; [discriminate|]. intros [= <-].
    change (f ++ List.concat fs) with (List.concat (f :: fs)). rewrite <- E.
    rewrite concat_map, map_map.
    erewrite map_ext by apply dislimit_frame_rows.
    etransitivity.
    + apply concat_Permutation.
      instantiate (1 := map (fun vid => filter (fun r => gps_VehicleId r =? vid) data)
                          (Pandas.drop_duplicates Z.eqb (map gps_VehicleId data))).
      generalize (Pandas.drop_duplicates Z.eqb (map gps_VehicleId data)).
      intros l. induction l as [|v l IHl]; simpl; constructor; [|exact IHl].
      apply sort_values_Permutation.
    + apply (groups_Permutation gps_VehicleId).
      * apply drop_duplicates_NoDup. intros x y. apply Z.eqb_eq.
      * intros r Hr. apply drop_duplicates_In_iff. now apply in_map.
Qed.


(** On a table with a row or more the matching raises nothing and keeps
    the number of rows. *)
Theorem position_matching_total (method : Method) (data : list (GPS Point)) :
  data <> [] ->
  exists bp,
    position_matching lineshp_project distance method data = Py.Ok bp
    /\ length bp = length data.
Proof.
  intros Hne.
  destruct (position_matching lineshp_project distance method data)
    as [bp|e] eqn:E.
  - exists bp. split; [reflexivity|].
    apply position_matching_Permutation in E.
    apply Permutation_length in E. now rewrite length_map in E.
  - exfalso. destruct method; [discriminate|].
    rewrite position_matching_dislimit in E.
    destruct data as [|r data]; [congruence|]. discriminate.
Qed.

End MatchingMore.

(** ** The whole of [busgps_arriveinfo] *)

Section ForRaise.

Context {X S : Type}.


End ForRaise.

Section ArriveMore.

Import Arriveinfo DwellSpec ArriveSpec MoreSpec.

Context {Point : Type}.
Variable lineshp_project : Point -> Q.
Variable distance : Point -> Point -> Q.
Variable intersection : list (Q * Q) -> list (Q * Q) -> Q -> list LineString.

#[local] Abbreviation arriveinfo :=
  (busgps_arriveinfo lineshp_project distance intersection).

(** *** The exceptions *)





(** *** Where the keys of a row come from *)

Lemma pair_up_keys n car c rows :
  pair_up n car c = Py.Ok rows ->
  Forall (fun r => stopname r = n /\ VehicleId r = car) rows.
Proof.
  unfold pair_up. destruct (Pandas.set_column _ _) as [l|e];
    cbn [mbind result_bind Py.bind mret result_ret]; [|discriminate].
  intros [= <-]. apply Forall_forall. intros r Hr.
  apply in_map_iff in Hr as (x & <- & _). now split.
Qed.

Lemma concat_Forall {A} (P : A -> Prop) ls f :
  Forall P (List.concat ls) -> Forall P f -> Forall P (List.concat (ls ++ [f])).
Proof. intros H1 H2. rewrite concat_snoc. now apply Forall_app. Qed.

Lemma arrive_frames_keys (data : list (BusProject Point)) stop stopbuffer
    mintime ls :
  arrive_frames lineshp_project intersection data stop stopbuffer mintime
  = Py.Ok ls ->
  Forall (fun r =>
            In (stopname r) (map stop_stopname stop)
            /\ (2 <= length (filter (fun x => (gps_VehicleId (gps x)
                                                =? VehicleId r)%Z)
                               data))%nat)
    (List.concat ls).
Proof.
  unfold arrive_frames.
  set (I := fun s : list (list (ArriveInfo Q)) =>
              Forall (fun r =>
                        In (stopname r) (map stop_stopname stop)
                        /\ (2 <= length (filter (fun x => (gps_VehicleId (gps x)
                                                            =? VehicleId r)%Z)
                                           data))%nat)
                (List.concat s)).
  apply (for_invariant I); [|constructor].
  intros car s s' _ Hs. unfold car_body.
  destruct (Nat.ltb_spec 1 (length (filter (fun r => gps_VehicleId (gps r) =? car)
                                      data))) as [Hlen|Hlen];
    [|intros [= <-]; exact Hs].
  revert Hs. apply (for_invariant I).
  intros n t t' Hn Ht. unfold stop_body.
  destruct (stop_position _ n) as [position|e];
    cbn [mbind result_bind Py.bind]; [|discriminate].
  destruct (intersection _ _ _) as [|p arrive]; [intros [= <-]; exact Ht|].
  destruct (arrive_new mintime n car (p :: arrive)) as [f|e] eqn:E;
    cbn [mbind result_bind Py.bind mret result_ret]; [|discriminate].
  intros [= <-]. apply concat_Forall; [exact Ht|].
  eapply Forall_impl; [|exact (pair_up_keys _ _ _ _ E)].
  intros r [-> ->]. split; [|exact Hlen].
  apply drop_duplicates_In in Hn. rewrite map_map in Hn. exact Hn.
Qed.

Lemma filter_gps_length (p : GPS Point -> bool) (bp : list (BusProject Point))
    data :
  Permutation (map gps bp) data ->
  length (filter (fun r => p (gps r)) bp) = length (filter p data).
Proof.
  intros H. rewrite <- (Permutation_length (filter_Permutation_std p _ _ H)).
  clear H. induction bp as [|r bp IH]; simpl; [reflexivity|].
  destruct (p (gps r)); simpl; now rewrite IH.
Qed.

(** Every row of the table returned names a stop of the stop table and a
    vehicle with two rows or more in the cleaned table. *)
Theorem arriveinfo_keys (data : list (GPS Point)) (stop : list (Stop Point))
    (stopbuffer mintime : Q) (method : Method) rows r :
  arriveinfo data stop stopbuffer mintime method = Py.Ok rows ->
  In r rows ->
  In (stopname r) (map stop_stopname stop)
  /\ (2 <= rows_of data (VehicleId r))%nat.
Proof.
  unfold busgps_arriveinfo.
  destruct (position_matching _ _ method data) as [bp|e] eqn:Ebp;
    cbn [mbind result_bind Py.bind]; [|discriminate].
  destruct (arrive_frames _ _ bp stop stopbuffer mintime) as [ls|e] eqn:Els;
    cbn [mbind result_bind Py.bind]; [|discriminate].
  destruct (Pandas.concat ls) as [info|e] eqn:Ec;
    cbn [mbind result_bind Py.bind mret result_ret]; [|discriminate].
  intros [= <-] Hr. apply in_map_iff in Hr as (q & <- & Hq).
  assert (info = List.concat ls) as ->.
  { destruct ls; cbn [Pandas.concat] in Ec; congruence. }
  pose proof (arrive_frames_keys _ _ _ _ _ Els) as Hkeys.
  rewrite Forall_forall in Hkeys. destruct (Hkeys q Hq) as [Hn Hlen].
  split; [exact Hn|]. unfold rows_of. cbn [to_timestamp VehicleId].
  apply position_matching_Permutation in Ebp as Hperm.
  now rewrite <- (filter_gps_length (fun x => gps_VehicleId x =? VehicleId q)
                    bp data Hperm).
Qed.

(** *** Nothing to match *)

(** A table in which no vehicle has two rows raises 'No objects to
    concatenate', whatever the stops. *)
Theorem arriveinfo_sparse_raises (data : list (GPS Point))
    (stop : list (Stop Point)) (stopbuffer mintime : Q) (method : Method) :
  (forall car, (rows_of data car < 2)%nat) ->
  arriveinfo data stop stopbuffer mintime method
  = Py.Raise Py.ValueError_NoObjectsToConcatenate.
Proof.
  intros Hsparse. unfold busgps_arriveinfo.
  destruct (position_matching _ _ method data) as [bp|e] eqn:Ebp;
    cbn [mbind result_bind Py.bind].
  - assert (Hls : arrive_frames lineshp_project intersection bp stop stopbuffer
                    mintime = Py.Ok []).
    { unfold arrive_frames. apply for_unchanged. intros car _.
      apply car_body_skipped.
      apply position_matching_Permutation in Ebp as Hperm.
      rewrite (filter_gps_length (fun x => gps_VehicleId x =? car) bp data Hperm).
      apply Hsparse. }
    rewrite Hls. reflexivity.
  - now rewrite (position_matching_raise _ _ _ _ _ Ebp).
Qed.

(** So does an empty stop table, whatever the rows. *)
Theorem arriveinfo_no_stops (data : list (GPS Point)) (stopbuffer mintime : Q)
    (method : Method) :
  arriveinfo data [] stopbuffer mintime method
  = Py.Raise Py.ValueError_NoObjectsToConcatenate.
Proof.
  unfold busgps_arriveinfo.
  destruct (position_matching _ _ method data) as [bp|e] eqn:Ebp;
    cbn [mbind result_bind Py.bind].
  - assert (Hls : arrive_frames lineshp_project intersection bp [] stopbuffer
                    mintime = Py.Ok []).
    { unfold arrive_frames. apply for_unchanged. intros car _.
      unfold car_body. now destruct (Nat.ltb 1 _). }
    rewrite Hls. reflexivity.
  - now rewrite (position_matching_raise _ _ _ _ _ Ebp).
Qed.

(** *** Never an empty table *)





End ArriveMore.

(** ** The arrangement of the table returned *)

Section Grouped.

Import MoreSpec.

Context {A K : Type} (key : A -> K).

Lemma grouped_same l k : Forall (fun r => key r = k) l -> grouped key l.
Proof.
  induction 1 as [|a l Ha Hl IH]; [exact I|].
  split; [|exact IH]. destruct Hl as [|b l Hb _]; [exact I|].
  left. congruence.
Qed.

Lemma grouped_app l1 l2 :
  grouped key l1 -> grouped key l2 ->
  (forall a b, In a l1 -> In b l2 -> key a <> key b) ->
  grouped key (l1 ++ l2).
Proof.
  intros H1 H2. induction l1 as [|a l1 IH]; intros Hd; [exact H2|].
  destruct H1 as [Ha H1].
  specialize (IH H1 ltac:(intros x y Hx; apply Hd; now right)).
  change ((a :: l1) ++ l2) with (a :: (l1 ++ l2)).
  split; [|exact IH].
  assert (Hl2 : ~ In (key a) (map key l2)).
  { intros Hin. apply in_map_iff in Hin as (b & Hb & Hin).
    apply (Hd a b); [now left|exact Hin|now symmetry]. }
  destruct l1 as [|b l1].
  - destruct l2 as [|b l2]; [exact I|]. now right.
  - destruct Ha as [Ha|Ha]; [now left|]. right.
    change ((b :: l1) ++ l2) with (b :: l1 ++ l2) in *.
    change (b :: l1 ++ l2) with ((b :: l1) ++ l2).
    rewrite map_app, in_app_iff. tauto.
Qed.

Lemma grouped_between a l2 b l3 :
  grouped key (a :: l2 ++ b :: l3) -> key a = key b ->
  Forall (fun c => key c = key a) l2.
Proof.
  revert a. induction l2 as [|c l2 IH]; intros a [Ha Hrest] Hab; constructor.
  - destruct Ha as [Ha|Ha]; [now symmetry|]. exfalso. apply Ha.
    change ((c :: l2) ++ b :: l3) with (c :: l2 ++ b :: l3).
    rewrite Hab. apply in_map. right. apply in_elt.
  - assert (Hac : key a = key c).
    { destruct Ha as [Ha|Ha]; [exact Ha|]. exfalso. apply Ha.
      rewrite Hab. apply in_map. right. apply in_elt. }
    rewrite Hac. apply IH; [exact Hrest|congruence].
Qed.

Lemma grouped_contiguous l : grouped key l -> contiguous key l.
Proof.
  intros H l1. revert l H. induction l1 as [|x l1 IH]; intros l H a l2 b l3 ->.
  - intros Hab. exact (grouped_between a l2 b l3 H Hab).
  - destruct H as [_ H]. exact (IH _ H a l2 b l3 eq_refl).
Qed.

Lemma grouped_map {B} (f : B -> A) l :
  grouped (fun x => key (f x)) l -> grouped key (map f l).
Proof.
  induction l as [|a l IH]; [exact id|]. intros [Ha H].
  split; [|exact (IH H)]. destruct l as [|b l]; [exact I|].
  destruct Ha as [Ha|Ha]; [now left|right].
  change (map f (b :: l)) with (map f (b :: l)). now rewrite map_map.
Qed.

End Grouped.

Section SeriesFacts.

Lemma fold_min_le l x :
  fold_left Z.min l x <= x /\ forall y, In y l -> fold_left Z.min l x <= y.
Proof.
  revert x. induction l as [|a l IH]; intros x; simpl; [split; [lia|tauto]|].
  destruct (IH (Z.min x a)) as [H1 H2]. split; [lia|].
  intros y [<-|Hy]; [lia|auto].
Qed.

Lemma series_min_le l x : In x l -> Pandas.series_min l <= x.
Proof.
  destruct l as [|a l]; [intros []|]. simpl.
  destruct (fold_min_le l a) as [H1 H2]. intros [<-|Hx]; auto.
Qed.

Lemma fold_min_In l x : fold_left Z.min l x = x \/ In (fold_left Z.min l x) l.
Proof.
  revert x. induction l as [|a l IH]; intros x; simpl; [now left|].
  destruct (IH (Z.min x a)) as [H|H]; [|now right; right].
  rewrite H. destruct (Z.min_spec x a) as [[_ ->]|[_ ->]]; auto.
Qed.

Lemma series_min_In l : l <> [] -> In (Pandas.series_min l) l.
Proof.
  destruct l as [|a l]; [congruence|]. intros _. simpl.
  destruct (fold_min_In l a) as [->|H]; auto.
Qed.

#[local] Abbreviation qmax := (fun m y : Q => if Qle_bool m y then y else m).

Lemma fold_max_ge l x :
  (x <= fold_left qmax l x)%Q
  /\ forall y, In y l -> (y <= fold_left qmax l x)%Q.
Proof.
  revert x. induction l as [|a l IH]; intros x; simpl;
    [split; [apply Qle_refl|tauto]|].
  destruct (IH (if Qle_bool x a then a else x)) as [H1 H2].
  assert (Hx : (x <= (if Qle_bool x a then a else x))%Q
               /\ (a <= (if Qle_bool x a then a else x))%Q).
  { destruct (Qle_bool x a) eqn:E.
    - apply Qle_bool_iff in E. split; [exact E|apply Qle_refl].
    - split; [apply Qle_refl|]. apply Qlt_le_weak, Qnot_le_lt.
      intros H. apply Qle_bool_iff in H. congruence. }
  split; [eapply Qle_trans; [apply Hx|exact H1]|].
  intros y [<-|Hy]; [eapply Qle_trans; [apply Hx|exact H1]|auto].
Qed.

Lemma series_max_ge l x : In x l -> (x <= Pandas.series_max l)%Q.
Proof.
  destruct l as [|a l]; [intros []|]. simpl.
  destruct (fold_max_ge l a) as [H1 H2]. intros [<-|Hx]; auto.
Qed.

Lemma total_seconds_nonneg td : 0 <= td -> (0 <= Pandas.total_seconds td)%Q.
Proof.
  intros H. unfold Pandas.total_seconds. apply Qle_shift_div_l; [reflexivity|].
  rewrite Qmult_0_l. change 0%Q with (inject_Z 0). now rewrite <- Zle_Qle.
Qed.

End SeriesFacts.

Section OrderMore.

Import Arriveinfo DwellSpec ArriveSpec MoreSpec.

Context {Point : Type}.
Variable lineshp_project : Point -> Q.
Variable distance : Point -> Point -> Q.
Variable intersection : list (Q * Q) -> list (Q * Q) -> Q -> list LineString.

(** *** The time axis *)

(** The elapsed time of a row is never negative, the earliest row has
    the elapsed time 0, and the segment drawn for a stop at line 163, from
    0 to the largest elapsed time, spans the time of every row. *)
Theorem time_st_range (data : list (BusProject Point)) (r : BusProject Point) :
  In r data ->
  let starttime := Pandas.series_min (map (fun r => GPSDateTime (gps r)) data) in
  let time_st_max := Pandas.series_max (map (time_st starttime) data) in
  (0 <= time_st starttime r)%Q
  /\ (time_st starttime r <= time_st_max)%Q
  /\ exists r0, In r0 data /\ (time_st starttime r0 == 0)%Q.
Proof.
  intros Hr starttime time_st_max. split; [|split].
  - unfold time_st. apply total_seconds_nonneg.
    assert (starttime <= GPSDateTime (gps r)); [|lia].
    apply series_min_le. now apply (in_map (fun r => GPSDateTime (gps r))).
  - apply series_max_ge. now apply in_map.
  - destruct (in_map_iff (fun r => GPSDateTime (gps r)) data starttime)
      as [H _].
    destruct H as (r0 & Hr0 & Hin).
    { apply series_min_In. destruct data; [destruct Hr|discriminate]. }
    exists r0. split; [exact Hin|]. unfold time_st. rewrite Hr0, Z.sub_diag.
    reflexivity.
Qed.

(** *** The rows of a vehicle at a stop are next to each other *)

Lemma arrive_frames_grouped (data : list (BusProject Point)) stop stopbuffer
    mintime ls :
  arrive_frames lineshp_project intersection data stop stopbuffer mintime
  = Py.Ok ls ->
  grouped visit_key (List.concat ls).
Proof.
  intros Hfor. unfold arrive_frames in Hfor.
  destruct (for_invariant_fresh
              (fun d s =>
                 grouped visit_key (List.concat s)
                 /\ Forall (fun r => In (VehicleId r) d) (List.concat s))
              _ _ [] [] ls Hfor) as (d & Hd & _).
  - apply drop_duplicates_NoDup. intros x y. apply Z.eqb_eq.
  - intros x _ [].
  - intros d car s s' _ Hcar [Hs Hkeys]. unfold car_body.
    destruct (Nat.ltb 1 _).
    + intros Hstops.
      destruct (for_invariant_fresh
                  (fun dn t =>
                     grouped visit_key (List.concat t)
                     /\ Forall (fun r => In (VehicleId r) d
                                         \/ (VehicleId r = car
                                             /\ In (stopname r) dn))
                          (List.concat t))
                  _ _ [] s s' Hstops) as (dn & Hg & Hk).
      * apply drop_duplicates_NoDup. intros x y. apply String.eqb_eq.
      * intros x _ [].
      * intros dn n t t' _ Hn [Ht Hkt]. unfold stop_body.
        destruct (stop_position _ n) as [position|e];
          cbn [mbind result_bind Py.bind]; [|discriminate].
        destruct (intersection _ _ _) as [|p arrive].
        { intros [= <-]. split; [exact Ht|].
          eapply Forall_impl; [|exact Hkt]. simpl. tauto. }
        destruct (arrive_new mintime n car (p :: arrive)) as [f|e] eqn:E;
          cbn [mbind result_bind Py.bind mret result_ret]; [|discriminate].
        intros [= <-]. rewrite concat_snoc.
        pose proof (pair_up_keys _ _ _ _ E) as Hf. split.
        -- apply grouped_app; [exact Ht| |].
           ++ apply (grouped_same visit_key f (car, n)).
              eapply Forall_impl; [|exact Hf]. intros r [<- <-]. reflexivity.
           ++ intros a b Ha Hb Hab. rewrite Forall_forall in Hkt, Hf.
              destruct (Hf b Hb) as [Hbn Hbc]. injection Hab as Hv Hn'.
              destruct (Hkt a Ha) as [Hd|[_ Hd]].
              ** apply Hcar. congruence.
              ** apply Hn. congruence.
        -- apply Forall_app. split.
           ++ eapply Forall_impl; [|exact Hkt]. simpl. tauto.
           ++ eapply Forall_impl; [|exact Hf]. simpl. intros r [-> ->]. auto.
      * split; [exact Hs|]. eapply Forall_impl; [|exact Hkeys]. simpl. tauto.
      * split; [exact Hg|]. eapply Forall_impl; [|exact Hk]. simpl.
        intros r [H|[H _]]; auto.
    + intros [= <-]. split; [exact Hs|].
      eapply Forall_impl; [|exact Hkeys]. simpl. auto.
  - split; [exact I|constructor].
  - exact Hd.
Qed.

(** In the table returned the rows of one vehicle at one stop are next
    to each other: between two of them there is no row of another vehicle
    or another stop. *)
Theorem arriveinfo_contiguous (data : list (GPS Point)) (stop : list (Stop Point))
    (stopbuffer mintime : Q) (method : Method) (rows : list (ArriveInfo Z)) :
  busgps_arriveinfo lineshp_project distance intersection data stop
    stopbuffer mintime method = Py.Ok rows ->
  contiguous visit_key rows.
Proof.
  unfold busgps_arriveinfo.
  destruct (position_matching _ _ method data) as [bp|e] eqn:Ebp;
    cbn [mbind result_bind Py.bind]; [|discriminate].
  destruct (arrive_frames _ _ bp stop stopbuffer mintime) as [ls|e] eqn:Els;
    cbn [mbind result_bind Py.bind]; [|discriminate].
  destruct (Pandas.concat ls) as [info|e] eqn:Ec;
    cbn [mbind result_bind Py.bind mret result_ret]; [|discriminate].
  intros [= <-].
  assert (info = List.concat ls) as ->.
  { destruct ls; cbn [Pandas.concat] in Ec; congruence. }
  apply grouped_contiguous, grouped_map.
  exact (arrive_frames_grouped _ _ _ _ _ Els).
Qed.

End OrderMore.

(** ** The further properties on the sample run *)

Section ArriveMoreWitnesses.

Import Arriveinfo DwellSpec ArriveSpec MoreSpec.


Lemma position_matching_total_witness :
  exists bp,
    position_matching Samples.lineshp_project Samples.distance method_dislimit
      Samples.gps_rows = Py.Ok bp
    /\ length bp = length Samples.gps_rows.
Proof.
  apply (position_matching_total Samples.lineshp_project Samples.distance
           method_dislimit Samples.gps_rows).
  discriminate.
Defined.

Lemma arriveinfo_keys_witness :
  In "S"%string (map stop_stopname Samples.stops)
  /\ (2 <= rows_of Samples.gps_rows 1)%nat.
Proof.
  apply (arriveinfo_keys Samples.lineshp_project Samples.distance
           Samples.intersection Samples.gps_rows Samples.stops 200 3
           method_project Samples.dwell_rows_3
           (mkArriveInfo (Samples.clock 8 1 40) (Samples.clock 8 2 10)
              "S"%string 1)).
  - reflexivity.
  - left. reflexivity.
Defined.

Lemma arriveinfo_sparse_raises_witness :
  busgps_arriveinfo Samples.lineshp_project Samples.distance
    Samples.intersection
    [mkGPS 1 (Samples.clock 8 0 0) (900, 0)%Q;
     mkGPS 2 (Samples.clock 8 2 0) (1000, 0)%Q]
    Samples.stops 200 3 method_dislimit
  = Py.Raise Py.ValueError_NoObjectsToConcatenate.
Proof.
  apply arriveinfo_sparse_raises.
  intros car. unfold rows_of. cbn [filter gps_VehicleId].
  destruct (1 =? car) eqn:E1, (2 =? car) eqn:E2; cbn [length]; lia.
Defined.


Lemma time_st_range_witness :
  let r := mkBusProject (mkGPS 1 (Samples.clock 8 1 0) (500, 0)%Q) 500 in
  let starttime :=
    Pandas.series_min (map (fun r => GPSDateTime (gps r)) Samples.bus_project) in
  let time_st_max :=
    Pandas.series_max (map (time_st starttime) Samples.bus_project) in
  (0 <= time_st starttime r)%Q
  /\ (time_st starttime r <= time_st_max)%Q
  /\ exists r0, In r0 Samples.bus_project /\ (time_st starttime r0 == 0)%Q.
Proof.
  apply (time_st_range Samples.bus_project).
  right. left. reflexivity.
Defined.

Lemma arriveinfo_contiguous_witness :
  contiguous visit_key Samples.dwell_rows_3.
Proof.
  apply (arriveinfo_contiguous Samples.lineshp_project Samples.distance
           Samples.intersection Samples.gps_rows Samples.stops 200 3
           method_project).
  reflexivity.
Defined.

End ArriveMoreWitnesses.
